(** * The worker side of the cocaine RPC protocol

    A shallow embedding of [cocaine/server/worker.py] (class [Worker]) and of
    [cocaine/sessioncontext.py] (class [Sandbox]), with the properties of the
    message dispatch that the specification states.

    The worker object is a record; every method is a function in a small
    state-and-exception monad over that record, so that a Python [raise]
    keeps the mutations made before it, as in the source. *)

From Stdlib Require Import ZArith NArith List Lia.
From stdpp Require Import gmap strings pretty.

Local Open Scope string_scope.
Local Open Scope list_scope.
Local Open Scope Z_scope.

(** ** Python exceptions *)

(** The exception classes the worker distinguishes.  [Exception] stands for
    an instance of any other subclass of Python's [Exception]; the last three
    constructors are the classes that derive from [BaseException] only, which
    an [except Exception] clause does not catch. *)
Inductive PyExc : Type :=
| ImportError (msg : string)
| SyntaxError (msg : string)
| KeyError (key : Z)
| ValueError (msg : string)
| IndexError (msg : string)
| RuntimeError (msg : string)
| Exception (msg : string)
| SystemExit (code : Z)
| KeyboardInterrupt
| GeneratorExit.

(** [isinstance(err, (ImportError, SyntaxError))] *)
Definition is_ImportError_or_SyntaxError (err : PyExc) : bool :=
  match err with
  | ImportError _ | SyntaxError _ => true
  | _ => false
  end.

(** [isinstance(err, Exception)] *)
Definition is_Exception (err : PyExc) : bool :=
  match err with
  | SystemExit _ | KeyboardInterrupt | GeneratorExit => false
  | _ => true
  end.

(** [sys.maxint] of a 64-bit CPython 2: beyond it an integer is a [long]. *)
Definition sys_maxint : Z := 2 ^ 63 - 1.

(** [repr] of a Python 2 integer: a [long] carries the suffix L. *)
Definition py_repr_int (z : Z) : string :=
  if bool_decide (- sys_maxint - 1 <= z <= sys_maxint)
  then pretty z
  else pretty z +:+ "L".

(** ["%d" % z], and ["%s" % z]: the decimal digits, also for a [long]. *)
Definition py_fmt_d (z : Z) : string := pretty z.

(** [str(err)]; a [KeyError] prints the [repr] of the missing key. *)
Definition py_str (err : PyExc) : string :=
  match err with
  | ImportError msg | SyntaxError msg | ValueError msg | IndexError msg
  | RuntimeError msg | Exception msg => msg
  | KeyError key => py_repr_int key
  | SystemExit code => py_repr_int code
  | KeyboardInterrupt | GeneratorExit => ""
  end.

(** ** Protocol messages ([protocol.message]) *)

Inductive RPC : Type :=
| HANDSHAKE | HEARTBEAT | TERMINATE | INVOKE | CHUNK | ERROR | CHOKE.

(** A decoded message: its opcode, its session and the payload of the
    opcode.  The byte encoding ([pack], [Decoder]) is the codec's. *)
Inductive Message : Type :=
| Handshake (session : Z) (identity : string)
| Heartbeat (session : Z)
| Terminate (session : Z) (errno : Z) (reason : string)
| Invoke (session : Z) (event : string)
| Chunk (session : Z) (data : string)
| Error (session : Z) (code : Z) (reason : string)
| Choke (session : Z).

(** [msg.id] *)
Definition msg_id (msg : Message) : RPC :=
  match msg with
  | Handshake _ _ => HANDSHAKE
  | Heartbeat _ => HEARTBEAT
  | Terminate _ _ _ => TERMINATE
  | Invoke _ _ => INVOKE
  | Chunk _ _ => CHUNK
  | Error _ _ _ => ERROR
  | Choke _ => CHOKE
  end.

(** [msg.session] *)
Definition msg_session (msg : Message) : Z :=
  match msg with
  | Handshake s _ | Heartbeat s | Terminate s _ _ | Invoke s _
  | Chunk s _ | Error s _ _ | Choke s => s
  end.

(** ** What application code does with a response *)

(** The three calls a handler can make on its [Response]. *)
Inductive ResponseOp : Type :=
| RWrite (data : string)
| RClose
| RError (code : Z) (text : string).

(** ** Continuation sinks ([concurrent.Deferred]) *)

(** A notification delivered to a sink. *)
Inductive Call : Type :=
| Trigger (data : string)
| Close
| Errback (err : PyExc).

(** What the code bound to a sink does when it is resumed: the calls it makes
    on its response, and the exception it lets escape, if any. *)
Definition Reaction : Type := list ResponseOp * option PyExc.

(** Modelled from the spec: the class [Deferred] of [cocaine.concurrent] is
    not among the sources.  The spec describes it as the pending continuation
    that receives the chunk, choke and error notifications of a session.  A
    sink is modelled by the notifications it received so far and by the
    behaviour the handler bound to it, which may depend on that history. *)
Record Deferred : Type := mkDeferred {
  history : list Call;
  behaviour : list Call -> Call -> Reaction
}.

(** [Deferred()]: nothing received, nothing bound. *)
Definition Deferred_new : Deferred :=
  {| history := []; behaviour := fun _ _ => ([], None) |}.

(** The sink after a notification, and the reaction of the bound code. *)
Definition deliver (d : Deferred) (c : Call) : Deferred * Reaction :=
  ({| history := history d ++ [c]; behaviour := behaviour d |},
   behaviour d (history d) c).

(** ** Handlers *)

(** One run of a handler factory and of the [invoke] of the handler it
    builds: the calls made on the response, the exception raised, if any, and
    the behaviour bound to the request's sink. *)
Record HandlerRun : Type := mkHandlerRun {
  hr_ops : list ResponseOp;
  hr_raise : option PyExc;
  hr_bind : list Call -> Call -> Reaction
}.

(** ** Timers ([asio.ev.Timer]) *)

(** Modelled from the spec: the timer class is not among the sources.  The
    spec gives it a fixed configured interval; starting it (again) arms it to
    the full interval and stopping it cancels it. *)
Record Timer : Type := mkTimer {
  timeout : N;
  remaining : option N
}.

Definition Timer_new (callback_time : N) : Timer :=
  {| timeout := callback_time; remaining := None |}.

Definition Timer_start (t : Timer) : Timer :=
  {| timeout := timeout t; remaining := Some (timeout t) |}.

Definition Timer_stop (t : Timer) : Timer :=
  {| timeout := timeout t; remaining := None |}.

(** ** The worker object and its observable effects *)

Inductive TimerId : Type := DisownTimer | HeartbeatTimer.

Inductive Level : Type := LDebug | LWarn | LError.

(** The calls the worker makes on its collaborators, in program order. *)
Inductive Effect : Type :=
| Write (msg : Message)            (* w_stream.write(msg.pack()) *)
| Log (lvl : Level) (text : string)
| PrintStack                       (* traceback.print_stack() *)
| TimerStart (t : TimerId)
| TimerStop (t : TimerId)
| LoopStop.                        (* loop.stop() *)

Inductive SocketType : Type := AF_INET | AF_INET6 | AF_UNIX.

Record Worker : Type := mkWorker {
  id : string;
  endpoint : string;
  sessions : gmap Z Deferred;
  sandbox : gmap string HandlerRun;     (* Sandbox._events *)
  disown_timer : Timer;
  heartbeat_timer : Timer;
  loop_stopped : bool;
  effects : list Effect
}.

(** The messages written to the transport, oldest first. *)
Fixpoint written (es : list Effect) : list Message :=
  match es with
  | [] => []
  | Write m :: es' => m :: written es'
  | _ :: es' => written es'
  end.

(** ** The monad of the methods: worker state and Python exceptions *)

Inductive Result (A : Type) : Type :=
| Return (a : A)
| Raise (err : PyExc).
Arguments Return {A} a.
Arguments Raise {A} err.

Definition M (A : Type) : Type := Worker -> Worker * Result A.

Definition ret {A} (a : A) : M A := fun w => (w, Return a).

Definition raise {A} (err : PyExc) : M A := fun w => (w, Raise err).

Definition bind {A B} (m : M A) (k : A -> M B) : M B :=
  fun w =>
    match m w with
    | (w', Return a) => k a w'
    | (w', Raise err) => (w', Raise err)
    end.

Notation "x <- m ;; k" := (bind m (fun x => k))
  (at level 100, m at next level, right associativity).
Notation "m ;; k" := (bind m (fun _ => k))
  (at level 100, right associativity).

(** [try: body / except ...: ...].  [clauses err] is the body of the first
    [except] clause that matches [err], or [None] when none does and the
    exception propagates. *)
Definition try_except {A} (body : M A) (clauses : PyExc -> option (M A)) : M A :=
  fun w =>
    match body w with
    | (w', Return a) => (w', Return a)
    | (w', Raise err) =>
        match clauses err with
        | Some handler => handler w'
        | None => (w', Raise err)
        end
    end.

Definition get {A} (f : Worker -> A) : M A := fun w => (w, Return (f w)).

Definition modify (f : Worker -> Worker) : M unit := fun w => (f w, Return tt).

Definition with_sessions (f : gmap Z Deferred -> gmap Z Deferred) (w : Worker) : Worker :=
  mkWorker (id w) (endpoint w) (f (sessions w)) (sandbox w)
           (disown_timer w) (heartbeat_timer w) (loop_stopped w) (effects w).

Definition with_disown_timer (f : Timer -> Timer) (w : Worker) : Worker :=
  mkWorker (id w) (endpoint w) (sessions w) (sandbox w)
           (f (disown_timer w)) (heartbeat_timer w) (loop_stopped w) (effects w).

Definition with_heartbeat_timer (f : Timer -> Timer) (w : Worker) : Worker :=
  mkWorker (id w) (endpoint w) (sessions w) (sandbox w)
           (disown_timer w) (f (heartbeat_timer w)) (loop_stopped w) (effects w).

Definition with_loop_stopped (b : bool) (w : Worker) : Worker :=
  mkWorker (id w) (endpoint w) (sessions w) (sandbox w)
           (disown_timer w) (heartbeat_timer w) b (effects w).

Definition with_effects (es : list Effect) (w : Worker) : Worker :=
  mkWorker (id w) (endpoint w) (sessions w) (sandbox w)
           (disown_timer w) (heartbeat_timer w) (loop_stopped w) (effects w ++ es).

Definition with_effect (e : Effect) (w : Worker) : Worker := with_effects [e] w.

Definition effect (e : Effect) : M unit := modify (with_effect e).

(** The collaborators, as the worker calls them. *)
Module log.
Definition debug (text : string) : M unit := effect (Log LDebug text).
Definition warn (text : string) : M unit := effect (Log LWarn text).
Definition error (text : string) : M unit := effect (Log LError text).
End log.

Module w_stream.
Definition write (msg : Message) : M unit := effect (Write msg).
End w_stream.

Module loop.
Definition stop : M unit :=
  effect LoopStop ;; modify (with_loop_stopped true).
End loop.

Module disown_timer_.
Definition start : M unit :=
  effect (TimerStart DisownTimer) ;; modify (with_disown_timer Timer_start).
Definition stop : M unit :=
  effect (TimerStop DisownTimer) ;; modify (with_disown_timer Timer_stop).
End disown_timer_.

Module heartbeat_timer_.
Definition start : M unit :=
  effect (TimerStart HeartbeatTimer) ;; modify (with_heartbeat_timer Timer_start).
End heartbeat_timer_.

(** Python's [exit(status)] raises [SystemExit(status)]. *)
Definition exit {A} (status : Z) : M A := raise (SystemExit status).

(** The object a handler answers through.  [Sandbox.invoke] knows it only by
    the methods it calls. *)
Record Stream : Type := mkStream {
  write : string -> M unit;
  close : M unit;
  error : Z -> string -> M unit
}.

Definition run_op (stream : Stream) (op : ResponseOp) : M unit :=
  match op with
  | RWrite data => write stream data
  | RClose => close stream
  | RError code text => error stream code text
  end.

(** The calls of application code on its response, in order. *)
Fixpoint run_ops (stream : Stream) (ops : list ResponseOp) : M unit :=
  match ops with
  | [] => ret tt
  | op :: ops' => run_op stream op ;; run_ops stream ops'
  end.

(** The message a call on the response of [session] emits. *)
Definition message_of (session : Z) (op : ResponseOp) : Message :=
  match op with
  | RWrite data => Chunk session data
  | RClose => Choke session
  | RError code text => Error session code text
  end.

(** Application code that makes the calls [ops] and then returns, or lets
    the exception escape. *)
Definition run_reaction (stream : Stream) (r : Reaction) : M unit :=
  run_ops stream (fst r) ;;
  match snd r with
  | Some err => raise err
  | None => ret tt
  end.

(** ** [Sandbox] *)

Module Sandbox.

(** [Sandbox.invoke(event_name, request, stream)].  The request wraps the
    sink the worker created; the handler binds its continuation to that
    object, so the function returns the sink as the handler left it. *)
Definition invoke (_events : gmap string HandlerRun) (event_name : string)
    (request : Deferred) (stream : Stream) : M Deferred :=
  match _events !! event_name with
  | Some event_closure =>
      run_reaction stream (hr_ops event_closure, hr_raise event_closure) ;;
      ret {| history := history request; behaviour := hr_bind event_closure |}
  | None =>
      log.warn ("there is no handler for event " +:+ event_name) ;;
      error stream (-100) ("there is no handler for event " +:+ event_name) ;;
      ret request
  end.

(** [Sandbox.on(event_name, event_handler)].  The handlers are Python
    callables of the application.  What a call of such a factory returns or
    raises, the test [hasattr(closure, "_wrapped")] on the object it built,
    and the adapter [default] of [cocaine.decorators] are not the sandbox's:
    they are the parameters of the registration.  The function returns the
    registry after the call, or the exception that leaves it. *)
Section Registration.

Context {Handler Closure : Type}.
Variable call : Handler -> Result Closure.
Variable has_wrapped : Closure -> bool.
Variable default : Handler -> Handler.

Definition on (_events : gmap string Handler) (event_name : string)
    (event_handler : Handler) : Result (gmap string Handler) :=
  match call event_handler with
  | Raise err =>
      if is_Exception err then
        match call (default event_handler) with
        | Raise err' => Raise err'
        | Return closure =>
            Return (<[event_name :=
                        if has_wrapped closure then default event_handler
                        else event_handler]> _events)
        end
      else Raise err
  | Return closure =>
      Return (<[event_name :=
                  if negb (has_wrapped closure) then default event_handler
                  else event_handler]> _events)
  end.

End Registration.

End Sandbox.

(** ** [Worker] *)

Definition with_sandbox (v : gmap string HandlerRun) (w : Worker) : Worker :=
  mkWorker (id w) (endpoint w) (sessions w) v
           (disown_timer w) (heartbeat_timer w) (loop_stopped w) (effects w).

Definition with_id (v : string) (w : Worker) : Worker :=
  mkWorker v (endpoint w) (sessions w) (sandbox w)
           (disown_timer w) (heartbeat_timer w) (loop_stopped w) (effects w).

Definition with_endpoint (v : string) (w : Worker) : Worker :=
  mkWorker (id w) v (sessions w) (sandbox w)
           (disown_timer w) (heartbeat_timer w) (loop_stopped w) (effects w).

(** [l.index(x)]: the position of the first element equal to [x]. *)
Fixpoint py_index (x : string) (l : list string) : option nat :=
  match l with
  | [] => None
  | y :: l' => if String.eqb y x then Some O else option_map S (py_index x l')
  end.

(** [init_args[init_args.index(flag) + 1]] with the exceptions of the two
    steps. *)
Definition arg_after (flag : string) (init_args : list string) : M string :=
  match py_index flag init_args with
  | None => raise (ValueError ("'" +:+ flag +:+ "' is not in list"))
  | Some i =>
      match nth_error init_args (i + 1) with
      | None => raise (IndexError "list index out of range")
      | Some v => ret v
      end
  end.

(** The shape of an endpoint value, as the type tests of [__init__] see it. *)
Inductive EndpointShape : Type :=
| TupleType (len : nat)
| ListType (len : nat)
| StringType
| OtherType.

(** The choice of the socket family in [__init__]. *)
Definition socket_type_of (shape : EndpointShape) : M SocketType :=
  match shape with
  | TupleType len | ListType len =>
      if Nat.eqb len 2 then ret AF_INET
      else if Nat.eqb len 4 then ret AF_INET6
      else raise (ValueError "invalid endpoint")
  | StringType => ret AF_UNIX
  | OtherType => raise (ValueError "invalid endpoint")
  end.

Module Worker.

(** *** Private: the outgoing messages *)

Definition _send_handshake : M unit :=
  self_id <- get id ;;
  w_stream.write (Handshake 0 self_id).

Definition _send_heartbeat : M unit :=
  disown_timer_.start ;;
  log.debug "Send heartbeat. Start disown timer" ;;
  w_stream.write (Heartbeat 0).

Definition _send_choke (session : Z) : M unit :=
  w_stream.write (Choke session).

Definition _send_chunk (session : Z) (data : string) : M unit :=
  w_stream.write (Chunk session data).

Definition _send_error (session : Z) (code : Z) (msg : string) : M unit :=
  w_stream.write (Error session code msg).

(** Modelled from the spec: the class [Response] of [cocaine.server] is not
    among the sources.  By the spec it offers write (emits a CHUNK), close
    (emits a CHOKE) and error (emits an ERROR), each delegating to the
    outgoing primitives of the worker for the session it is bound to. *)
Definition Response (session : Z) : Stream :=
  {| write := _send_chunk session;
     close := _send_choke session;
     error := _send_error session |}.

(** *** [_init_endpoint] and [__init__] *)

Definition _init_endpoint (init_args : list string) : M unit :=
  try_except
    (v <- arg_after "--uuid" init_args ;;
     modify (with_id v) ;;
     e <- arg_after "--endpoint" init_args ;;
     modify (with_endpoint e))
    (fun err =>
       if is_Exception err then Some (
         log.error ("Wrong cmdline arguments: " +:+ py_str err +:+ " ") ;;
         raise (RuntimeError "Wrong cmdline arguments"))
       else None).

(** The object before [__init__] runs. *)
Definition blank : Worker :=
  {| id := ""; endpoint := ""; sessions := ∅; sandbox := ∅;
     disown_timer := Timer_new 0; heartbeat_timer := Timer_new 0;
     loop_stopped := false; effects := [] |}.

(** [Worker.__init__].  The arguments are a command line: a list of
    strings, [sys.argv] when none (or an empty one) is given, so that the
    endpoint is of [StringType].  [connect] is what the blocking connect of
    the transport does: it returns, or raises the given exception. *)
Definition __init__ (init_args : option (list string)) (sys_argv : list string)
    (disown_timeout heartbeat_timeout : N) (connect : option PyExc) : M unit :=
  _init_endpoint (match init_args with
                  | Some (a :: l) => a :: l
                  | _ => sys_argv
                  end) ;;
  modify (with_sessions (fun _ => ∅)) ;;
  modify (with_sandbox ∅) ;;
  modify (with_loop_stopped false) ;;
  modify (with_disown_timer (fun _ => Timer_new disown_timeout)) ;;
  modify (with_heartbeat_timer (fun _ => Timer_new heartbeat_timeout)) ;;
  heartbeat_timer_.start ;;
  socket_type_of StringType ;;
  match connect with Some err => raise err | None => ret tt end ;;
  self_id <- get id ;;
  log.debug ("Worker with " +:+ self_id +:+ " send handshake") ;;
  _send_handshake ;;
  _send_heartbeat.

(** *** [terminate] *)

Definition terminate {A} (errno : Z) (reason : string) : M A :=
  w_stream.write (Terminate 0 errno reason) ;;
  loop.stop ;;
  exit 1.

(** *** Events *)

Definition on_heartbeat : M unit := _send_heartbeat.

(** A call of [trigger], [close] or [error] on the sink [_session] of
    [session].  The sink is the object the table refers to, so the table
    sees it record the notification; the code bound to the sink then runs,
    answering through the response of its session. *)
Definition notify (session : Z) (_session : Deferred) (c : Call) : M unit :=
  modify (with_sessions <[session := fst (deliver _session c)]>) ;;
  run_reaction (Response session) (snd (deliver _session c)).

(** [self.sessions.pop(session)] *)
Definition sessions_pop (session : Z) : M unit :=
  table <- get sessions ;;
  match table !! session with
  | None => raise (KeyError session)
  | Some _ => modify (with_sessions (delete session))
  end.

(** [on_message(args)], on [msg = Message.initialize(args)]: [None] is what
    the codec returns for data that is no message. *)
Definition on_message (msg : option Message) : M unit :=
  match msg with
  | None => ret tt
  | Some (Invoke session event) =>
      let deferred := Deferred_new in
      let request := deferred in
      let response := Response session in
      try_except
        (_events <- get sandbox ;;
         bound <- Sandbox.invoke _events event request response ;;
         modify (with_sessions <[session := bound]>))
        (fun err =>
           if is_ImportError_or_SyntaxError err then Some (
             error response 2 ("unrecoverable error: " +:+ py_str err +:+ " ") ;;
             terminate 1 "Bad code")
           else if is_Exception err then Some (
             log.error ("On invoke error: " +:+ py_str err) ;;
             effect PrintStack ;;
             error response 1 "Invocation error")
           else None)
  | Some (Chunk session data) =>
      log.debug ("Receive chunk: " +:+ py_fmt_d session) ;;
      try_except
        (table <- get sessions ;;
         match table !! session with
         | None => raise (KeyError session)
         | Some _session => notify session _session (Trigger data)
         end)
        (fun err =>
           if is_Exception err then Some (
             log.error ("On push error: " +:+ py_str err) ;;
             terminate 1 ("Push error: " +:+ py_str err))
           else None)
  | Some (Choke session) =>
      log.debug ("Receive choke: " +:+ py_fmt_d session) ;;
      table <- get sessions ;;
      match table !! session with
      | Some _session =>
          notify session _session Close ;;
          sessions_pop session
      | None => ret tt
      end
  | Some (Heartbeat _) =>
      log.debug "Receive heartbeat. Stop disown timer" ;;
      disown_timer_.stop
  | Some (Terminate _ errno reason) =>
      log.debug ("Receive terminate. " +:+ py_fmt_d errno +:+ ", " +:+ reason) ;;
      terminate errno reason
  | Some (Error session _ reason) =>
      table <- get sessions ;;
      match table !! session with
      | Some _session => notify session _session (Errback (Exception reason))
      | None => ret tt
      end
  | Some (Handshake _ _) => ret tt
  end.

Definition on_disown : M unit :=
  log.error "Disowned" ;;
  loop.stop.

(** *** Event machine *)

Section Registration.

Context {Closure : Type}.
Variable call : HandlerRun -> Result Closure.
Variable has_wrapped : Closure -> bool.
Variable default : HandlerRun -> HandlerRun.

(** [Worker.on(event, callback)]: the registration of the sandbox, on the
    registry of this worker. *)
Definition on (event : string) (callback : HandlerRun) : M unit :=
  fun w =>
    match Sandbox.on call has_wrapped default (sandbox w) event callback with
    | Return _events => (with_sandbox _events w, Return tt)
    | Raise err => (w, Raise err)
    end.

End Registration.

End Worker.

(** ** A worker for the examples *)

Module Examples.

(** A handler that answers pong and closes. *)
Definition ping : HandlerRun :=
  {| hr_ops := [RWrite "pong"; RClose];
     hr_raise := None;
     hr_bind := fun _ _ => ([], None) |}.

(** A handler whose module cannot be imported. *)
Definition bad_code : HandlerRun :=
  {| hr_ops := [];
     hr_raise := Some (ImportError "No module named app");
     hr_bind := fun _ _ => ([], None) |}.

(** A handler that fails after a first answer. *)
Definition failing : HandlerRun :=
  {| hr_ops := [RWrite "partial"];
     hr_raise := Some (Exception "boom");
     hr_bind := fun _ _ => ([], None) |}.

(** A sink that echoes every chunk and closes its response on choke. *)
Definition echo : Deferred :=
  {| history := [];
     behaviour := fun _ c =>
       match c with
       | Trigger data => ([RWrite data], None)
       | Close => ([RClose], None)
       | Errback _ => ([], None)
       end |}.

(** A sink whose end-of-stream callback fails. *)
Definition fragile : Deferred :=
  {| history := [];
     behaviour := fun _ c =>
       match c with
       | Close => ([RWrite "bye"], Some (RuntimeError "callback failed"))
       | _ => ([], None)
       end |}.

(** A started worker with three registered events and two live
    sessions. *)
Definition worker : Worker :=
  with_sessions (fun _ => <[5 := echo]> (<[9 := fragile]> ∅))
    (with_sandbox (<["ping" := ping]> (<["bad" := bad_code]> (<["oops" := failing]> ∅)))
       (fst (Worker.__init__ (Some ["--uuid"; "w1"; "--endpoint"; "/tmp/engine.sock"])
               [] 2 20 None Worker.blank))).

(** The same worker after the peer choked session 5. *)
Definition after_choke : Worker :=
  fst (Worker.on_message (Some (Choke 5)) worker).

End Examples.

(** ** The two statements of the specification that the code does not meet *)

(** A CHUNK for [session] is ignored: nothing escapes, nothing is written,
    the scheduler keeps running. *)
Definition chunk_is_ignored (w : Worker) (session : Z) (data : string) : Prop :=
  let '(w', r) := Worker.on_message (Some (Chunk session data)) w in
  r = Return tt
  /\ written (effects w') = written (effects w)
  /\ loop_stopped w' = loop_stopped w.

(** The disown callback stops the scheduler, writes nothing and ends the
    process with a non-zero status. *)
Definition disown_exits_nonzero (w : Worker) : Prop :=
  let '(w', r) := Worker.on_disown w in
  loop_stopped w' = true
  /\ written (effects w') = written (effects w)
  /\ exists status, r = Raise (SystemExit status) /\ status <> 0.

(** ** Further scenarios *)

Module Scenarios.

(** A sink that rejects every chunk after a first answer. *)
Definition picky : Deferred :=
  {| history := [];
     behaviour := fun _ c =>
       match c with
       | Trigger _ => ([RWrite "nak"], Some (ValueError "bad payload"))
       | _ => ([], None)
       end |}.

(** A sink whose code is interrupted from the keyboard. *)
Definition interrupted : Deferred :=
  {| history := [];
     behaviour := fun _ _ => ([RWrite "..."], Some KeyboardInterrupt) |}.

(** A handler that leaves the interpreter. *)
Definition quitter : HandlerRun :=
  {| hr_ops := [RWrite "leaving"];
     hr_raise := Some (SystemExit 3);
     hr_bind := fun _ _ => ([], None) |}.

(** The worker of the examples with these two sinks and this handler. *)
Definition worker : Worker :=
  with_sessions (fun table => <[11 := picky]> (<[12 := interrupted]> table))
    (with_sandbox (<["quit" := quitter]> (sandbox Examples.worker))
       Examples.worker).

(** Handler factories as the registration sees them: a class of the
    framework, whose instances carry the marker; a plain function of a request
    and a response, which cannot be called without arguments; and the adapted
    form of a factory, whose instances carry the marker. *)
Inductive Factory : Type :=
| FrameworkClass (name : string)
| PlainFunction (name : string)
| Adapted (f : Factory).

(** The object a factory builds, by whether it carries the marker. *)
Definition call (f : Factory) : Result bool :=
  match f with
  | FrameworkClass _ => Return true
  | PlainFunction name =>
      Raise (Exception (name +:+ "() takes exactly 2 arguments (0 given)"))
  | Adapted _ => Return true
  end.

Definition has_wrapped (closure : bool) : bool := closure.



End Scenarios.

(** * Properties *)

(** ** The state after a sequence of effects *)

Lemma with_effects_nil w : with_effects [] w = w.
Proof. destruct w; unfold with_effects; simpl. by rewrite app_nil_r. Qed.

Lemma with_effects_app es1 es2 w :
  with_effects es2 (with_effects es1 w) = with_effects (es1 ++ es2) w.
Proof. unfold with_effects; simpl. by rewrite app_assoc. Qed.

Lemma written_app es1 es2 : written (es1 ++ es2) = written es1 ++ written es2.
Proof.
  induction es1 as [|e es1 IH]; [done|].
  destruct e; simpl; by rewrite ?IH.
Qed.

Lemma written_writes ms : written (map Write ms) = ms.
Proof. induction ms as [|m ms IH]; simpl; by rewrite ?IH. Qed.

(** The calls of application code on the response of a session only write
    the messages of those calls, in their order, and never raise. *)
Lemma run_ops_Response session ops w :
  run_ops (Worker.Response session) ops w
  = (with_effects (map Write (map (message_of session) ops)) w, Return tt).
Proof.
  revert w. induction ops as [|op ops IH]; intros w; simpl.
  - by rewrite with_effects_nil.
  - unfold bind. destruct op; simpl; rewrite IH; unfold with_effect;
      by rewrite with_effects_app.
Qed.

Lemma run_reaction_Response session ops raised w :
  run_reaction (Worker.Response session) (ops, raised) w
  = (with_effects (map Write (map (message_of session) ops)) w,
     match raised with Some err => Raise err | None => Return tt end).
Proof.
  unfold run_reaction, bind; simpl. rewrite run_ops_Response.
  by destruct raised.
Qed.

(** ** Dispatch of the data-plane messages *)

(** The steps of the monad, for symbolic execution of a method. *)
Ltac step :=
  unfold Worker.terminate, Worker.notify, Worker.sessions_pop,
    Worker._send_error, Worker._send_heartbeat, Worker._send_handshake,
    log.debug, log.error, log.warn, w_stream.write, loop.stop,
    disown_timer_.start, disown_timer_.stop, heartbeat_timer_.start,
    exit, effect, try_except, bind, get, modify, raise, ret; simpl.

(** C1 (as the code has it).  A CHUNK whose session id has no entry in the
    Session Table is not ignored: the failed lookup is caught by the handler
    of a failed push, and the engine enters the Terminate path.  It writes
    one TERMINATE message with errno 1 and the reason "Push error: " followed
    by the missing key, stops the scheduler and exits with status 1; the
    table is left as it was, so nothing reaches a sink.  After a CHOKE that
    returned, the entry of its session is absent, so a CHUNK that follows it
    takes this path. *)
Theorem chunk_unknown_session_terminates (w : Worker) (session : Z) (data : string) :
  (sessions w !! session = None ->
   exists w',
     Worker.on_message (Some (Chunk session data)) w = (w', Raise (SystemExit 1))
     /\ written (effects w')
        = written (effects w) ++ [Terminate 0 1 ("Push error: " +:+ py_repr_int session)]
     /\ loop_stopped w' = true
     /\ sessions w' = sessions w)
  /\ (forall w0, Worker.on_message (Some (Choke session)) w0 = (w, Return tt) ->
                 sessions w !! session = None).
Proof.
  split.
  - intros Habsent. eexists. unfold Worker.on_message. step.
    rewrite Habsent. simpl. split; [reflexivity|]. simpl.
    rewrite !written_app. simpl. by rewrite !app_nil_r.
  - intros w0. unfold Worker.on_message. step.
    destruct (sessions w0 !! session) as [d|] eqn:Hd.
    + destruct (behaviour d (history d) Close) as [ops raised] eqn:Hb.
      rewrite run_reaction_Response.
      destruct raised; [discriminate|]. simpl.
      rewrite lookup_insert_eq. intros [= <-]. simpl.
      apply lookup_delete_eq.
    + intros [= <-]. done.
Qed.

Lemma chunk_unknown_session_terminates_witness :
  (exists w',
      Worker.on_message (Some (Chunk 5 "x")) Examples.after_choke
      = (w', Raise (SystemExit 1))
      /\ written (effects w')
         = written (effects Examples.after_choke)
           ++ [Terminate 0 1 ("Push error: " +:+ py_repr_int 5)]
      /\ loop_stopped w' = true
      /\ sessions w' = sessions Examples.after_choke)
  /\ sessions Examples.after_choke !! 5 = None.
Proof.
  destruct (chunk_unknown_session_terminates Examples.after_choke 5 "x")
    as [Hchunk Hchoke].
  split.
  - apply Hchunk. vm_compute. reflexivity.
  - apply (Hchoke Examples.worker). vm_compute. reflexivity.
Defined.

(** The statement of the specification fails on a CHUNK for a session that
    never existed and on a CHUNK that follows the CHOKE of its session. *)
Lemma chunk_unknown_session_not_ignored :
  sessions Examples.worker !! 7 = None
  /\ ~ chunk_is_ignored Examples.worker 7 "x"
  /\ sessions Examples.after_choke !! 5 = None
  /\ ~ chunk_is_ignored Examples.after_choke 5 "x".
Proof.
  repeat split; try (vm_compute; reflexivity);
    vm_compute; intros [Hret _]; discriminate Hret.
Qed.

(** ** The disown callback *)

(** C2 (as the code has it).  When the disown timer fires, the engine logs
    the event and stops the scheduler; it writes no message, leaves the
    Session Table as it was and returns: the callback does not enter the
    Terminate path and raises no exit. *)
Theorem on_disown_stops_loop_and_returns (w : Worker) :
  exists w',
    Worker.on_disown w = (w', Return tt)
    /\ effects w' = effects w ++ [Log LError "Disowned"; LoopStop]
    /\ written (effects w') = written (effects w)
    /\ loop_stopped w' = true
    /\ sessions w' = sessions w.
Proof.
  eexists. unfold Worker.on_disown. step. split; [reflexivity|]. simpl.
  rewrite <- !app_assoc, written_app. simpl. by rewrite app_nil_r.
Qed.

(** The statement of the specification fails: no exit status is raised. *)
Lemma on_disown_does_not_exit : ~ disown_exits_nonzero Examples.worker.
Proof.
  vm_compute. intros (_ & _ & status & Hexit & _). discriminate Hexit.
Qed.

(** C6.  A CHOKE or an ERROR for a session id without an entry is a no-op:
    the dispatch returns, writes no message and leaves the Session Table as
    it was (a CHOKE only adds a debug line to the log, an ERROR changes
    nothing at all). *)
Theorem choke_error_unknown_session_noop
    (w : Worker) (session code : Z) (reason : string) :
  sessions w !! session = None ->
  (exists w',
      Worker.on_message (Some (Choke session)) w = (w', Return tt)
      /\ written (effects w') = written (effects w)
      /\ sessions w' = sessions w
      /\ loop_stopped w' = loop_stopped w)
  /\ Worker.on_message (Some (Error session code reason)) w = (w, Return tt).
Proof.
  intros Habsent. split.
  - eexists. unfold Worker.on_message. step. rewrite Habsent.
    split; [reflexivity|]. simpl. rewrite written_app. simpl.
    by rewrite app_nil_r.
  - unfold Worker.on_message. step. by rewrite Habsent.
Qed.

Lemma choke_error_unknown_session_noop_witness :
  (exists w',
      Worker.on_message (Some (Choke 7)) Examples.worker = (w', Return tt)
      /\ written (effects w') = written (effects Examples.worker)
      /\ sessions w' = sessions Examples.worker
      /\ loop_stopped w' = loop_stopped Examples.worker)
  /\ Worker.on_message (Some (Error 7 3 "gone")) Examples.worker
     = (Examples.worker, Return tt).
Proof.
  apply (choke_error_unknown_session_noop Examples.worker 7 3 "gone").
  vm_compute. reflexivity.
Defined.

(** C7.  On a TERMINATE from the peer the engine writes exactly one
    TERMINATE message, with session 0 and the errno and reason of the
    message received, stops the scheduler and exits with status 1. *)
Theorem peer_terminate_enters_terminate_path
    (w : Worker) (session errno : Z) (reason : string) :
  exists w',
    Worker.on_message (Some (Terminate session errno reason)) w
    = (w', Raise (SystemExit 1))
    /\ written (effects w') = written (effects w) ++ [Terminate 0 errno reason]
    /\ loop_stopped w' = true
    /\ sessions w' = sessions w
    /\ 1 <> 0.
Proof.
  eexists. unfold Worker.on_message. step. split; [reflexivity|]. simpl.
  rewrite !written_app. simpl. by rewrite !app_nil_r.
Qed.

(** ** Dispatch of INVOKE *)

(** The handler dispatch touches the worker only through the response: it
    adds effects and changes nothing else. *)
Lemma invoke_adds_effects _events event request session w :
  exists es,
    fst (Sandbox.invoke _events event request (Worker.Response session) w)
    = with_effects es w.
Proof.
  unfold Sandbox.invoke. destruct (_events !! event) as [h|].
  - unfold bind. rewrite run_reaction_Response.
    destruct (hr_raise h); simpl; eauto.
  - step. unfold with_effect. rewrite with_effects_app. eauto.
Qed.

(** Without a handler for the event the dispatch returns: it logs a warning
    and writes the sentinel error to the response. *)
Lemma invoke_no_handler _events event request session w :
  _events !! event = None ->
  Sandbox.invoke _events event request (Worker.Response session) w
  = (with_effects
       [Log LWarn ("there is no handler for event " +:+ event);
        Write (Error session (-100) ("there is no handler for event " +:+ event))]
       w,
     Return request).
Proof.
  intros Hnone. unfold Sandbox.invoke. rewrite Hnone. step.
  unfold with_effect. by rewrite with_effects_app.
Qed.

(** C3.  When the handler dispatch of an INVOKE returns, the engine returns
    too and the Session Table is the old table with the sink of the request
    stored under the session id of the message: that entry is present, every
    other key is as before, and the table grows by exactly one entry when
    the id was free.  This includes the event without a registered handler:
    the dispatch then writes the sentinel error (code -100) and returns, and
    the entry is created all the same. *)
Theorem invoke_returning_creates_entry (w : Worker) (session : Z) (event : string) :
  (forall w1 bound,
      Sandbox.invoke (sandbox w) event Deferred_new (Worker.Response session) w
      = (w1, Return bound) ->
      exists w',
        Worker.on_message (Some (Invoke session event)) w = (w', Return tt)
        /\ sessions w' = <[session := bound]> (sessions w)
        /\ sessions w' !! session = Some bound
        /\ (forall s, s <> session -> sessions w' !! s = sessions w !! s)
        /\ (sessions w !! session = None ->
            size (sessions w') = S (size (sessions w)))
        /\ effects w' = effects w1
        /\ loop_stopped w' = loop_stopped w)
  /\ (sandbox w !! event = None ->
      exists w',
        Worker.on_message (Some (Invoke session event)) w = (w', Return tt)
        /\ written (effects w')
           = written (effects w)
             ++ [Error session (-100) ("there is no handler for event " +:+ event)]
        /\ sessions w' = <[session := Deferred_new]> (sessions w)).
Proof.
  assert (Hreturn : forall w1 bound,
      Sandbox.invoke (sandbox w) event Deferred_new (Worker.Response session) w
      = (w1, Return bound) ->
      Worker.on_message (Some (Invoke session event)) w
      = (with_sessions <[session := bound]> w1, Return tt)
      /\ sessions w1 = sessions w /\ loop_stopped w1 = loop_stopped w).
  { intros w1 bound Hinv.
    destruct (invoke_adds_effects (sandbox w) event Deferred_new session w)
      as [es Hes].
    rewrite Hinv in Hes. simpl in Hes. subst w1.
    unfold Worker.on_message, try_except, bind, get, modify.
    by rewrite Hinv. }
  split.
  - intros w1 bound Hinv.
    destruct (Hreturn w1 bound Hinv) as (Hmsg & Htable & Hloop).
    eexists. split; [exact Hmsg|]. simpl. rewrite Htable.
    repeat split; try done.
    + apply lookup_insert_eq.
    + intros s Hs. by apply lookup_insert_ne.
    + apply map_size_insert_None.
  - intros Hnone.
    pose proof (invoke_no_handler (sandbox w) event Deferred_new session w Hnone)
      as Hinv.
    destruct (Hreturn _ _ Hinv) as (Hmsg & _ & _).
    eexists. split; [exact Hmsg|]. simpl. split; [|done].
    rewrite written_app. simpl. done.
Qed.

Lemma invoke_returning_creates_entry_witness :
  (exists w',
      Worker.on_message (Some (Invoke 7 "ping")) Examples.worker = (w', Return tt)
      /\ sessions w' !! 7
         = Some {| history := []; behaviour := hr_bind Examples.ping |}
      /\ size (sessions w') = S (size (sessions Examples.worker)))
  /\ (exists w',
         Worker.on_message (Some (Invoke 3 "unknown")) Examples.worker
         = (w', Return tt)
         /\ written (effects w')
            = written (effects Examples.worker)
              ++ [Error 3 (-100) "there is no handler for event unknown"]
         /\ sessions w' = <[3 := Deferred_new]> (sessions Examples.worker)).
Proof.
  split.
  - destruct (proj1 (invoke_returning_creates_entry Examples.worker 7 "ping")
                (fst (Sandbox.invoke (sandbox Examples.worker) "ping" Deferred_new
                        (Worker.Response 7) Examples.worker))
                {| history := []; behaviour := hr_bind Examples.ping |})
      as (w' & Hmsg & _ & Hentry & _ & Hsize & _).
    + vm_compute. reflexivity.
    + exists w'. repeat split; [exact Hmsg | exact Hentry |].
      apply Hsize. vm_compute. reflexivity.
  - apply (proj2 (invoke_returning_creates_entry Examples.worker 3 "unknown")).
    vm_compute. reflexivity.
Defined.

(** C4.  When the handler dispatch of an INVOKE raises an [ImportError] or
    a [SyntaxError], the engine adds to what the handler wrote exactly one
    ERROR message for the session, with code 2, and then one TERMINATE
    message with errno 1 and the reason "Bad code"; it stops the scheduler
    and exits with status 1.  The Session Table is as before, so no entry is
    created for the session. *)
Theorem invoke_fatal_error_terminates
    (w w1 : Worker) (session : Z) (event : string) (err : PyExc) :
  Sandbox.invoke (sandbox w) event Deferred_new (Worker.Response session) w
  = (w1, Raise err) ->
  is_ImportError_or_SyntaxError err = true ->
  exists w',
    Worker.on_message (Some (Invoke session event)) w = (w', Raise (SystemExit 1))
    /\ effects w'
       = effects w1
         ++ [Write (Error session 2 ("unrecoverable error: " +:+ py_str err +:+ " "));
             Write (Terminate 0 1 "Bad code");
             LoopStop]
    /\ written (effects w')
       = written (effects w1)
         ++ [Error session 2 ("unrecoverable error: " +:+ py_str err +:+ " ");
             Terminate 0 1 "Bad code"]
    /\ loop_stopped w' = true
    /\ sessions w' = sessions w.
Proof.
  intros Hinv Hfatal.
  destruct (invoke_adds_effects (sandbox w) event Deferred_new session w)
    as [es Hes].
  rewrite Hinv in Hes. simpl in Hes. subst w1.
  eexists. unfold Worker.on_message, try_except, bind, get.
  rewrite Hinv, Hfatal. step. split; [reflexivity|]. simpl.
  rewrite <- !app_assoc. simpl. repeat split.
  rewrite !written_app. simpl. by rewrite <- !app_assoc.
Qed.

Lemma invoke_fatal_error_terminates_witness :
  exists w',
    Worker.on_message (Some (Invoke 7 "bad")) Examples.worker
    = (w', Raise (SystemExit 1))
    /\ written (effects w')
       = written (effects Examples.worker)
         ++ [Error 7 2 "unrecoverable error: No module named app ";
             Terminate 0 1 "Bad code"]
    /\ loop_stopped w' = true
    /\ sessions w' = sessions Examples.worker.
Proof.
  destruct (invoke_fatal_error_terminates Examples.worker Examples.worker
              7 "bad" (ImportError "No module named app"))
    as (w' & Hmsg & _ & Hwritten & Hloop & Htable).
  - vm_compute. reflexivity.
  - reflexivity.
  - exists w'. repeat split; [exact Hmsg | exact Hwritten | exact Hloop | exact Htable].
Defined.

(** C5.  When the handler dispatch of an INVOKE raises any other instance of
    [Exception], the engine adds to what the handler wrote exactly one ERROR
    message for the session, with code 1 (the fatal class has code 2), and
    returns: the scheduler is not stopped, and the Session Table is as
    before, so no entry is created for the session. *)
Theorem invoke_recoverable_error_continues
    (w w1 : Worker) (session : Z) (event : string) (err : PyExc) :
  Sandbox.invoke (sandbox w) event Deferred_new (Worker.Response session) w
  = (w1, Raise err) ->
  is_ImportError_or_SyntaxError err = false ->
  is_Exception err = true ->
  exists w' code,
    Worker.on_message (Some (Invoke session event)) w = (w', Return tt)
    /\ written (effects w')
       = written (effects w1) ++ [Error session code "Invocation error"]
    /\ code = 1 /\ code <> 2
    /\ effects w'
       = effects w1
         ++ [Log LError ("On invoke error: " +:+ py_str err); PrintStack;
             Write (Error session code "Invocation error")]
    /\ loop_stopped w' = loop_stopped w
    /\ sessions w' = sessions w.
Proof.
  intros Hinv Hfatal Hexc.
  destruct (invoke_adds_effects (sandbox w) event Deferred_new session w)
    as [es Hes].
  rewrite Hinv in Hes. simpl in Hes. subst w1.
  eexists. exists 1. unfold Worker.on_message, try_except, bind, get.
  rewrite Hinv, Hfatal, Hexc. step. split; [reflexivity|]. simpl.
  rewrite <- !app_assoc. simpl. repeat split; try done.
  rewrite !written_app. simpl. by rewrite <- !app_assoc.
Qed.

Lemma invoke_recoverable_error_continues_witness :
  exists w',
    Worker.on_message (Some (Invoke 7 "oops")) Examples.worker = (w', Return tt)
    /\ written (effects w')
       = written (effects Examples.worker)
         ++ [Chunk 7 "partial"; Error 7 1 "Invocation error"]
    /\ loop_stopped w' = false
    /\ sessions w' = sessions Examples.worker.
Proof.
  destruct (invoke_recoverable_error_continues Examples.worker
              (with_effects [Write (Chunk 7 "partial")] Examples.worker)
              7 "oops" (Exception "boom"))
    as (w' & code & Hmsg & Hwritten & -> & _ & _ & Hloop & Htable).
  - vm_compute. reflexivity.
  - reflexivity.
  - reflexivity.
  - exists w'. repeat split; [exact Hmsg | | exact Hloop | exact Htable].
    rewrite Hwritten. vm_compute. reflexivity.
Defined.

(** ** Heartbeats and the disown timer *)

(** C8.  Every heartbeat emission first (re)starts the disown timer, which
    arms it to its full configured timeout, and only then writes the
    HEARTBEAT message; the periodic tick is that emission, and the
    initialisation of the worker ends with it.  Every HEARTBEAT received from
    the peer stops the disown timer. *)
Theorem heartbeat_emission_arms_disown_timer :
  (forall w, exists w',
      Worker._send_heartbeat w = (w', Return tt)
      /\ disown_timer w' = Timer_start (disown_timer w)
      /\ remaining (disown_timer w') = Some (timeout (disown_timer w))
      /\ effects w'
         = effects w
           ++ [TimerStart DisownTimer;
               Log LDebug "Send heartbeat. Start disown timer";
               Write (Heartbeat 0)])
  /\ Worker.on_heartbeat = Worker._send_heartbeat
  /\ (forall init_args sys_argv disown_timeout heartbeat_timeout connect w0 w,
         Worker.__init__ init_args sys_argv disown_timeout heartbeat_timeout
           connect w0 = (w, Return tt) ->
         disown_timer w
         = {| timeout := disown_timeout; remaining := Some disown_timeout |}
         /\ exists before,
             effects w
             = before
               ++ [Write (Handshake 0 (id w));
                   TimerStart DisownTimer;
                   Log LDebug "Send heartbeat. Start disown timer";
                   Write (Heartbeat 0)])
  /\ (forall w session, exists w',
         Worker.on_message (Some (Heartbeat session)) w = (w', Return tt)
         /\ disown_timer w' = Timer_stop (disown_timer w)
         /\ remaining (disown_timer w') = None
         /\ written (effects w') = written (effects w)).
Proof.
  split; [|split; [reflexivity|split]].
  - intros w. eexists. step. split; [reflexivity|]. simpl.
    repeat split. by rewrite <- !app_assoc.
  - intros init_args sys_argv disown_timeout heartbeat_timeout connect w0 w.
    unfold Worker.__init__.
    set (args := match init_args with Some (a :: l) => a :: l | _ => sys_argv end).
    unfold bind at 1.
    destruct (Worker._init_endpoint args w0) as [w1 [[]|e]]; [|discriminate].
    step. destruct connect; [discriminate|]. simpl.
    intros [= <-]. simpl. split; [reflexivity|].
    exists (effects w1
            ++ [TimerStart HeartbeatTimer;
                Log LDebug ("Worker with " +:+ id w1 +:+ " send handshake")]).
    by rewrite <- !app_assoc.
  - intros w session. eexists. unfold Worker.on_message. step.
    split; [reflexivity|]. simpl. repeat split.
    rewrite <- !app_assoc, written_app. simpl. by rewrite app_nil_r.
Qed.

Lemma heartbeat_emission_arms_disown_timer_witness :
  let w := fst (Worker.__init__ (Some ["--uuid"; "w1"; "--endpoint"; "/tmp/engine.sock"])
                  [] 2 20 None Worker.blank) in
  disown_timer w = {| timeout := 2; remaining := Some 2%N |}
  /\ exists before,
      effects w
      = before
        ++ [Write (Handshake 0 (id w));
            TimerStart DisownTimer;
            Log LDebug "Send heartbeat. Start disown timer";
            Write (Heartbeat 0)].
Proof.
  intros w.
  apply (proj1 (proj2 (proj2 heartbeat_emission_arms_disown_timer))
           (Some ["--uuid"; "w1"; "--endpoint"; "/tmp/engine.sock"])
           [] 2%N 20%N None Worker.blank w).
  vm_compute. reflexivity.
Defined.

(** ** Notifications to a live session *)

(** C9.  An ERROR for a session with a live entry delivers an error
    notification, carrying the reason of the message, to the sink of that
    session, and the entry stays in the Session Table: the table has the
    same keys as before and maps the session to the sink that recorded the
    notification, whether the code bound to the sink returns or raises. *)
Theorem error_live_session_keeps_entry
    (w : Worker) (session code : Z) (reason : string) (d : Deferred) :
  sessions w !! session = Some d ->
  let w' := fst (Worker.on_message (Some (Error session code reason)) w) in
  sessions w' = <[session := fst (deliver d (Errback (Exception reason)))]> (sessions w)
  /\ sessions w' !! session
     = Some {| history := history d ++ [Errback (Exception reason)];
               behaviour := behaviour d |}
  /\ dom (sessions w') = dom (sessions w)
  /\ written (effects w')
     = written (effects w)
       ++ map (message_of session)
            (fst (behaviour d (history d) (Errback (Exception reason))))
  /\ snd (Worker.on_message (Some (Error session code reason)) w)
     = match snd (behaviour d (history d) (Errback (Exception reason))) with
       | Some err => Raise err
       | None => Return tt
       end
  /\ loop_stopped w' = loop_stopped w.
Proof.
  intros Hlive. unfold Worker.on_message. step. rewrite Hlive.
  destruct (behaviour d (history d) (Errback (Exception reason)))
    as [ops raised] eqn:Hb.
  rewrite run_reaction_Response. simpl. repeat split.
  - apply lookup_insert_eq.
  - apply dom_insert_lookup_L. by rewrite Hlive.
  - by rewrite written_app, written_writes.
Qed.

Lemma error_live_session_keeps_entry_witness :
  let w' := fst (Worker.on_message (Some (Error 5 3 "lost")) Examples.worker) in
  sessions w' !! 5
  = Some {| history := [Errback (Exception "lost")];
            behaviour := behaviour Examples.echo |}
  /\ dom (sessions w') = dom (sessions Examples.worker).
Proof.
  destruct (error_live_session_keeps_entry Examples.worker 5 3 "lost" Examples.echo)
    as (_ & Hentry & Hdom & _).
  - vm_compute. reflexivity.
  - split; [exact Hentry | exact Hdom].
Defined.

(** C10.  For a CHOKE on a session with a live entry, the end-of-stream
    call on the sink comes before the removal of the entry.  When that call
    raises, the exception leaves the dispatch as it is; the entry is still
    in the Session Table, with the notification recorded by its sink; the
    engine wrote nothing but what the code bound to the sink wrote, so no
    TERMINATE message, and did not stop the scheduler. *)
Theorem choke_close_raises_keeps_entry
    (w : Worker) (session : Z) (d : Deferred) (err : PyExc) :
  sessions w !! session = Some d ->
  snd (behaviour d (history d) Close) = Some err ->
  exists w',
    Worker.on_message (Some (Choke session)) w = (w', Raise err)
    /\ sessions w' !! session
       = Some {| history := history d ++ [Close]; behaviour := behaviour d |}
    /\ dom (sessions w') = dom (sessions w)
    /\ written (effects w')
       = written (effects w)
         ++ map (message_of session) (fst (behaviour d (history d) Close))
    /\ (forall m, m ∈ written (effects w') ->
                  m ∈ written (effects w) \/ msg_id m <> TERMINATE)
    /\ loop_stopped w' = loop_stopped w.
Proof.
  intros Hlive Hraise.
  destruct (behaviour d (history d) Close) as [ops raised] eqn:Hb.
  simpl in Hraise. subst raised.
  eexists. unfold Worker.on_message. step. rewrite Hlive, Hb.
  rewrite run_reaction_Response. simpl. split; [reflexivity|]. simpl.
  assert (Hwritten :
    written ((effects w ++ [Log LDebug ("Receive choke: " +:+ py_fmt_d session)])
             ++ map Write (map (message_of session) ops))
    = written (effects w) ++ map (message_of session) ops).
  { rewrite !written_app, written_writes. simpl. by rewrite app_nil_r. }
  repeat split.
  - apply lookup_insert_eq.
  - apply dom_insert_lookup_L. by rewrite Hlive.
  - exact Hwritten.
  - intros m. rewrite Hwritten, elem_of_app. intros [Hold|Hops]; [by left|right].
    apply list_elem_of_fmap in Hops as (op & -> & _). by destruct op.
Qed.

Lemma choke_close_raises_keeps_entry_witness :
  exists w',
    Worker.on_message (Some (Choke 9)) Examples.worker
    = (w', Raise (RuntimeError "callback failed"))
    /\ sessions w' !! 9
       = Some {| history := [Close]; behaviour := behaviour Examples.fragile |}
    /\ written (effects w') = written (effects Examples.worker) ++ [Chunk 9 "bye"]
    /\ loop_stopped w' = false.
Proof.
  destruct (choke_close_raises_keeps_entry Examples.worker 9 Examples.fragile
              (RuntimeError "callback failed"))
    as (w' & Hmsg & Hentry & _ & Hwritten & _ & Hloop).
  - vm_compute. reflexivity.
  - reflexivity.
  - exists w'. repeat split;
      [exact Hmsg | exact Hentry | exact Hwritten | exact Hloop].
Defined.

(** * Further properties of the dispatch *)

(** ** Delivery of chunks and chokes to a live session *)

(** With a handler registered for the event the dispatch is the run of that
    handler on the response. *)
Lemma invoke_registered _events event request session h w :
  _events !! event = Some h ->
  Sandbox.invoke _events event request (Worker.Response session) w
  = (with_effects (map Write (map (message_of session) (hr_ops h))) w,
     match hr_raise h with
     | Some err => Raise err
     | None => Return {| history := history request; behaviour := hr_bind h |}
     end).
Proof.
  intros Hsome. unfold Sandbox.invoke. rewrite Hsome. unfold bind.
  rewrite run_reaction_Response. by destruct (hr_raise h).
Qed.

(** The messages written after a log line and the answers of application
    code. *)
Lemma written_log_then_ops es lvl text session ops :
  written ((es ++ [Log lvl text]) ++ map Write (map (message_of session) ops))
  = written es ++ map (message_of session) ops.
Proof. rewrite !written_app, written_writes. simpl. by rewrite app_nil_r. Qed.

(** X1.  A CHUNK for a live session whose sink accepts it: the payload reaches
    the sink, the answers of the code bound to the sink are written in their
    order, the entry stays under the same key and the dispatch returns. *)
Theorem chunk_live_session_delivers
    (w : Worker) (session : Z) (data : string) (d : Deferred) :
  sessions w !! session = Some d ->
  snd (behaviour d (history d) (Trigger data)) = None ->
  exists w',
    Worker.on_message (Some (Chunk session data)) w = (w', Return tt)
    /\ sessions w'
       = <[session := {| history := history d ++ [Trigger data];
                         behaviour := behaviour d |}]> (sessions w)
    /\ dom (sessions w') = dom (sessions w)
    /\ written (effects w')
       = written (effects w)
         ++ map (message_of session) (fst (behaviour d (history d) (Trigger data)))
    /\ loop_stopped w' = loop_stopped w.
Proof.
  intros Hlive Hreturn.
  destruct (behaviour d (history d) (Trigger data)) as [ops raised] eqn:Hb.
  simpl in Hreturn. subst raised.
  eexists. unfold Worker.on_message. step. rewrite Hlive, Hb.
  rewrite run_reaction_Response. simpl. split; [reflexivity|]. simpl.
  repeat split.
  - apply dom_insert_lookup_L. by rewrite Hlive.
  - apply written_log_then_ops.
Qed.

Lemma chunk_live_session_delivers_witness :
  exists w',
    Worker.on_message (Some (Chunk 5 "abc")) Examples.worker = (w', Return tt)
    /\ sessions w' !! 5
       = Some {| history := [Trigger "abc"]; behaviour := behaviour Examples.echo |}
    /\ written (effects w') = written (effects Examples.worker) ++ [Chunk 5 "abc"].
Proof.
  destruct (chunk_live_session_delivers Examples.worker 5 "abc" Examples.echo)
    as (w' & Hmsg & Htable & _ & Hwritten & _).
  - vm_compute. reflexivity.
  - reflexivity.
  - exists w'. repeat split; [exact Hmsg | | exact Hwritten].
    rewrite Htable. apply lookup_insert_eq.
Defined.

(** X2.  A CHUNK for a live session whose sink fails with an instance of
    [Exception]: the engine enters the Terminate path.  After the answers the
    bound code wrote before failing, it writes one TERMINATE message with
    errno 1 and the reason "Push error: " followed by the text of the
    exception, stops the scheduler and exits with status 1.  The entry is
    still in the table. *)
Theorem chunk_push_failure_terminates
    (w : Worker) (session : Z) (data : string) (d : Deferred) (err : PyExc) :
  sessions w !! session = Some d ->
  snd (behaviour d (history d) (Trigger data)) = Some err ->
  is_Exception err = true ->
  exists w',
    Worker.on_message (Some (Chunk session data)) w = (w', Raise (SystemExit 1))
    /\ written (effects w')
       = written (effects w)
         ++ map (message_of session) (fst (behaviour d (history d) (Trigger data)))
         ++ [Terminate 0 1 ("Push error: " +:+ py_str err)]
    /\ loop_stopped w' = true
    /\ sessions w' !! session
       = Some {| history := history d ++ [Trigger data]; behaviour := behaviour d |}.
Proof.
  intros Hlive Hraise Hexc.
  destruct (behaviour d (history d) (Trigger data)) as [ops raised] eqn:Hb.
  simpl in Hraise. subst raised.
  eexists. unfold Worker.on_message. step. rewrite Hlive, Hb.
  rewrite run_reaction_Response. simpl. rewrite Hexc. simpl.
  split; [reflexivity|]. simpl. repeat split.
  - rewrite !written_app, written_writes. simpl. rewrite !app_nil_r.
    by rewrite <- !app_assoc.
  - apply lookup_insert_eq.
Qed.

Lemma chunk_push_failure_terminates_witness :
  exists w',
    Worker.on_message (Some (Chunk 11 "abc")) Scenarios.worker
    = (w', Raise (SystemExit 1))
    /\ written (effects w')
       = written (effects Scenarios.worker)
         ++ [Chunk 11 "nak"; Terminate 0 1 "Push error: bad payload"]
    /\ loop_stopped w' = true.
Proof.
  destruct (chunk_push_failure_terminates Scenarios.worker 11 "abc"
              Scenarios.picky (ValueError "bad payload"))
    as (w' & Hmsg & Hwritten & Hloop & _).
  - vm_compute. reflexivity.
  - reflexivity.
  - reflexivity.
  - exists w'. repeat split; [exact Hmsg | exact Hwritten | exact Hloop].
Defined.

(** ** Exceptions outside [Exception] *)

(** X3.  An exception that is no instance of [Exception] (an exit, a keyboard
    interrupt) passes through the dispatch of a CHUNK and of an INVOKE as it
    is: the engine writes nothing of its own, neither an ERROR nor a
    TERMINATE message, does not stop the scheduler, and an INVOKE creates no
    entry. *)
Theorem base_exception_passes_through
    (w : Worker) (session : Z) (err : PyExc) :
  is_Exception err = false ->
  (forall data d,
      sessions w !! session = Some d ->
      snd (behaviour d (history d) (Trigger data)) = Some err ->
      exists w',
        Worker.on_message (Some (Chunk session data)) w = (w', Raise err)
        /\ written (effects w')
           = written (effects w)
             ++ map (message_of session)
                  (fst (behaviour d (history d) (Trigger data)))
        /\ loop_stopped w' = loop_stopped w)
  /\ (forall event h,
         sandbox w !! event = Some h ->
         hr_raise h = Some err ->
         exists w',
           Worker.on_message (Some (Invoke session event)) w = (w', Raise err)
           /\ written (effects w')
              = written (effects w) ++ map (message_of session) (hr_ops h)
           /\ loop_stopped w' = loop_stopped w
           /\ sessions w' = sessions w).
Proof.
  intros Hbase.
  assert (Hfatal : is_ImportError_or_SyntaxError err = false)
    by (by destruct err).
  split.
  - intros data d Hlive Hraise.
    destruct (behaviour d (history d) (Trigger data)) as [ops raised] eqn:Hb.
    simpl in Hraise. subst raised.
    eexists. unfold Worker.on_message. step. rewrite Hlive, Hb.
    rewrite run_reaction_Response. simpl. rewrite Hbase.
    split; [reflexivity|]. simpl. split; [|done].
    apply written_log_then_ops.
  - intros event h Hsome Hraise.
    eexists. unfold Worker.on_message, try_except, bind, get.
    rewrite (invoke_registered _ _ _ _ _ _ Hsome), Hraise, Hfatal, Hbase.
    split; [reflexivity|]. simpl. repeat split.
    by rewrite written_app, written_writes.
Qed.

Lemma base_exception_passes_through_witness :
  (exists w',
      Worker.on_message (Some (Chunk 12 "abc")) Scenarios.worker
      = (w', Raise KeyboardInterrupt)
      /\ written (effects w') = written (effects Scenarios.worker) ++ [Chunk 12 "..."]
      /\ loop_stopped w' = false)
  /\ (exists w',
         Worker.on_message (Some (Invoke 12 "quit")) Scenarios.worker
         = (w', Raise (SystemExit 3))
         /\ written (effects w')
            = written (effects Scenarios.worker) ++ [Chunk 12 "leaving"]
         /\ sessions w' = sessions Scenarios.worker).
Proof.
  split.
  - destruct (proj1 (base_exception_passes_through Scenarios.worker 12
                       KeyboardInterrupt eq_refl)
                "abc" Scenarios.interrupted)
      as (w' & Hmsg & Hwritten & Hloop).
    + vm_compute. reflexivity.
    + reflexivity.
    + exists w'. repeat split; [exact Hmsg | exact Hwritten | exact Hloop].
  - destruct (proj2 (base_exception_passes_through Scenarios.worker 12
                       (SystemExit 3) eq_refl)
                "quit" Scenarios.quitter)
      as (w' & Hmsg & Hwritten & _ & Htable).
    + vm_compute. reflexivity.
    + reflexivity.
    + exists w'. repeat split; [exact Hmsg | exact Hwritten | exact Htable].
Defined.

(** Removing a present key takes exactly one entry away. *)
Lemma size_delete_live {A} (table : gmap Z A) (key : Z) :
  is_Some (table !! key) -> S (size (delete key table)) = size table.
Proof.
  intros Hlive. rewrite map_size_delete_Some by done.
  apply (map_size_ne_0_lookup_2 table key) in Hlive. lia.
Qed.

(** X4.  A CHOKE for a live session whose sink takes the end of the stream: the
    answers of the bound code are written, the entry is removed, every other
    entry is as before and the table has one entry less. *)
Theorem choke_live_session_removes_entry
    (w : Worker) (session : Z) (d : Deferred) :
  sessions w !! session = Some d ->
  snd (behaviour d (history d) Close) = None ->
  exists w',
    Worker.on_message (Some (Choke session)) w = (w', Return tt)
    /\ sessions w' = delete session (sessions w)
    /\ sessions w' !! session = None
    /\ S (size (sessions w')) = size (sessions w)
    /\ written (effects w')
       = written (effects w)
         ++ map (message_of session) (fst (behaviour d (history d) Close))
    /\ loop_stopped w' = loop_stopped w.
Proof.
  intros Hlive Hreturn.
  destruct (behaviour d (history d) Close) as [ops raised] eqn:Hb.
  simpl in Hreturn. subst raised.
  eexists. unfold Worker.on_message. step. rewrite Hlive, Hb.
  rewrite run_reaction_Response. simpl. rewrite lookup_insert_eq.
  split; [reflexivity|]. simpl. rewrite delete_insert_eq.
  repeat split.
  - apply lookup_delete_eq.
  - apply size_delete_live. by rewrite Hlive.
  - apply written_log_then_ops.
Qed.

Lemma choke_live_session_removes_entry_witness :
  exists w',
    Worker.on_message (Some (Choke 5)) Examples.worker = (w', Return tt)
    /\ sessions w' !! 5 = None
    /\ S (size (sessions w')) = size (sessions Examples.worker)
    /\ written (effects w') = written (effects Examples.worker) ++ [Choke 5].
Proof.
  destruct (choke_live_session_removes_entry Examples.worker 5 Examples.echo)
    as (w' & Hmsg & _ & Habsent & Hsize & Hwritten & _).
  - vm_compute. reflexivity.
  - reflexivity.
  - exists w'. repeat split; [exact Hmsg | exact Habsent | exact Hsize | exact Hwritten].
Defined.

(** ** What one dispatch can and cannot change *)

(** Case analysis on a dispatch: the message, the table or registry entry it
    refers to, and what the application code it runs does. *)
Ltac dispatch w msg :=
  let s := fresh "s" in
  let ev := fresh "ev" in
  let data := fresh "data" in
  let h := fresh "h" in
  let d := fresh "d" in
  let e := fresh "e" in
  let ops := fresh "ops" in
  let Hh := fresh "Hh" in
  let Hd := fresh "Hd" in
  let Hb := fresh "Hb" in
  destruct msg as [[s ?|s|s ? ?|s ev|s data|s ? ?|s]|];
  unfold Worker.on_message;
  [ step
  | step
  | step
  | unfold try_except, bind, get;
    destruct (sandbox w !! ev) as [h|] eqn:Hh;
    [ rewrite (invoke_registered _ _ _ _ _ _ Hh);
      destruct (hr_raise h) as [e|];
      [ destruct (is_ImportError_or_SyntaxError e) eqn:?;
        [ | destruct (is_Exception e) eqn:? ] | ]
    | rewrite (invoke_no_handler _ _ _ _ _ Hh) ];
    step
  | step;
    destruct (sessions w !! s) as [d|] eqn:Hd; simpl;
    [ destruct (behaviour d (history d) (Trigger data)) as [ops [e|]] eqn:Hb;
      rewrite run_reaction_Response; simpl;
      [ destruct (is_Exception e) eqn:? | ]
    | ]; simpl
  | step;
    destruct (sessions w !! s) as [d|] eqn:Hd; simpl;
    [ match goal with
      | |- context [behaviour d (history d) ?c] =>
          destruct (behaviour d (history d) c) as [ops [e|]] eqn:Hb
      end;
      rewrite run_reaction_Response; simpl
    | ]
  | step;
    destruct (sessions w !! s) as [d|] eqn:Hd; simpl;
    [ destruct (behaviour d (history d) Close) as [ops [e|]] eqn:Hb;
      rewrite run_reaction_Response; simpl;
      rewrite ?lookup_insert_eq; simpl
    | ]
  | step ].

(** X5.  A dispatch leaves the configuration of the worker alone: its identity,
    its endpoint, the registry of handlers, the heartbeat timer and the
    timeout of the disown timer are as before, and the disown timer itself
    is as before unless the message is a HEARTBEAT. *)
Theorem on_message_keeps_configuration (w : Worker) (msg : option Message) :
  let w' := fst (Worker.on_message msg w) in
  id w' = id w
  /\ endpoint w' = endpoint w
  /\ sandbox w' = sandbox w
  /\ heartbeat_timer w' = heartbeat_timer w
  /\ timeout (disown_timer w') = timeout (disown_timer w)
  /\ (msg_id <$> msg <> Some HEARTBEAT -> disown_timer w' = disown_timer w).
Proof.
  dispatch w msg; repeat split; done.
Qed.

Lemma on_message_keeps_configuration_witness :
  disown_timer (fst (Worker.on_message (Some (Choke 5)) Examples.worker))
  = disown_timer Examples.worker.
Proof.
  apply (on_message_keeps_configuration Examples.worker (Some (Choke 5))).
  discriminate.
Defined.

(** X6.  A dispatch touches no entry of the Session Table but the one of the
    session of its message: every other session keeps its sink, with the
    notifications it had received, whatever the outcome of the dispatch. *)
Theorem on_message_other_sessions_untouched
    (w : Worker) (msg : option Message) (other : Z) :
  msg_session <$> msg <> Some other ->
  sessions (fst (Worker.on_message msg w)) !! other = sessions w !! other.
Proof.
  intros Hother.
  assert (Hne : forall s, msg_session <$> msg = Some s -> s <> other)
    by (intros s Hs ->; done).
  dispatch w msg; try done;
    rewrite ?lookup_delete_ne, ?lookup_insert_ne; try done;
    by apply Hne.
Qed.

Lemma on_message_other_sessions_untouched_witness :
  sessions (fst (Worker.on_message (Some (Choke 5)) Examples.worker)) !! 9
  = sessions Examples.worker !! 9.
Proof.
  apply (on_message_other_sessions_untouched Examples.worker (Some (Choke 5)) 9).
  discriminate.
Defined.

(** The answers of application code on the response of a session are data,
    end-of-stream and error messages of that session. *)
Lemma message_of_elem session ops m :
  m ∈ map (message_of session) ops ->
  msg_session m = session
  /\ (msg_id m = CHUNK \/ msg_id m = CHOKE \/ msg_id m = ERROR).
Proof.
  intros Hm. apply list_elem_of_fmap in Hm as (op & -> & _).
  destruct op; simpl; auto.
Qed.

(** The effects of a dispatch, as a suffix of the trace. *)
Ltac added_effects :=
  first
    [ exists []; split; [by rewrite app_nil_r|]
    | rewrite <- ?app_assoc; eexists; split; [reflexivity|] ].

(** Membership in the messages of an explicit suffix of the trace. *)
Ltac in_written H :=
  simpl in H;
  repeat first [rewrite written_app in H | rewrite written_writes in H
               | progress simpl in H];
  repeat first [rewrite elem_of_app in H | rewrite elem_of_cons in H
               | rewrite elem_of_nil in H].

(** X7.  Sessions do not leak into each other: every message a dispatch writes is
    a CHUNK, a CHOKE or an ERROR of the session of the message dispatched,
    or a TERMINATE with session 0.  A dispatch writes no HANDSHAKE, no
    HEARTBEAT and no INVOKE. *)
Theorem on_message_writes_for_its_session (w : Worker) (msg : option Message) :
  exists es,
    effects (fst (Worker.on_message msg w)) = effects w ++ es
    /\ forall m, m ∈ written es ->
         (msg_session <$> msg = Some (msg_session m)
          /\ (msg_id m = CHUNK \/ msg_id m = CHOKE \/ msg_id m = ERROR))
         \/ (exists errno reason, m = Terminate 0 errno reason).
Proof.
  dispatch w msg; added_effects; intros m Hm; in_written Hm;
    repeat match goal with
           | H : _ \/ _ |- _ => destruct H
           | H : False |- _ => destruct H
           | H : _ ∈ map (message_of _) _ |- _ =>
               apply message_of_elem in H as [<- ?]
           end;
    subst; simpl; eauto.
Qed.

(** Splitting an explicit list at a given suffix. *)
Lemma ends_here {A} (suffix : list A) : suffix = [] ++ suffix.
Proof. done. Qed.

Lemma ends_after_cons {A} (x : A) (l front suffix : list A) :
  l = front ++ suffix -> x :: l = (x :: front) ++ suffix.
Proof. by intros ->. Qed.

Lemma ends_after_app {A} (l1 l front suffix : list A) :
  l = front ++ suffix -> l1 ++ l = (l1 ++ front) ++ suffix.
Proof. intros ->. by rewrite app_assoc. Qed.

Ltac split_at_suffix :=
  repeat first
    [ apply ends_here
    | eapply ends_after_cons
    | eapply ends_after_app ].

(** Application code does not stop the scheduler. *)
Lemma LoopStop_not_written ms : LoopStop ∉ map Write ms.
Proof. intros Hin. apply list_elem_of_fmap in Hin as (m & Hm & _). discriminate. Qed.

(** Membership in an explicit suffix of the trace. *)
Ltac in_effects H :=
  simpl in H;
  repeat first [rewrite elem_of_app in H | rewrite elem_of_cons in H
               | rewrite elem_of_nil in H];
  repeat match goal with
         | H' : _ \/ _ |- _ => destruct H'
         | H' : False |- _ => destruct H'
         | H' : LoopStop ∈ map Write _ |- _ => destruct (LoopStop_not_written _ H')
         | H' : LoopStop = _ |- _ => discriminate H'
         end.

(** X8.  The Terminate path is the only way a dispatch stops the scheduler.
    Either the dispatch adds no stop of the loop and no TERMINATE message to
    the trace and leaves the state of the scheduler as it was; or the trace
    it adds ends with one TERMINATE message (session 0) followed at once by
    the stop of the loop, these two being the only ones it adds, and the
    dispatch leaves by an exit with status 1. *)
Theorem on_message_stops_loop_only_to_terminate (w : Worker) (msg : option Message) :
  exists es,
    effects (fst (Worker.on_message msg w)) = effects w ++ es
    /\ (((LoopStop ∉ es)
         /\ (forall m, m ∈ written es -> msg_id m <> TERMINATE)
         /\ loop_stopped (fst (Worker.on_message msg w)) = loop_stopped w)
        \/ (exists front errno reason,
               es = front ++ [Write (Terminate 0 errno reason); LoopStop]
               /\ (LoopStop ∉ front)
               /\ (forall m, m ∈ written front -> msg_id m <> TERMINATE)
               /\ loop_stopped (fst (Worker.on_message msg w)) = true
               /\ snd (Worker.on_message msg w) = Raise (SystemExit 1))).
Proof.
  dispatch w msg; added_effects;
    first
      [ left; split; [intros Hin; by in_effects Hin|];
        split; [|reflexivity];
        intros m Hm; in_written Hm;
        repeat match goal with
               | H : _ \/ _ |- _ => destruct H
               | H : False |- _ => destruct H
               | H : _ ∈ map (message_of _) _ |- _ =>
                   apply message_of_elem in H as [_ [->| [->| ->]]]
               end;
        subst; simpl; discriminate
      | right; eexists _, _, _; split; [split_at_suffix|];
        split; [intros Hin; by in_effects Hin|];
        split; [|split; reflexivity];
        intros m Hm; in_written Hm;
        repeat match goal with
               | H : _ \/ _ |- _ => destruct H
               | H : False |- _ => destruct H
               | H : _ ∈ map (message_of _) _ |- _ =>
                   apply message_of_elem in H as [_ [->| [->| ->]]]
               end;
        subst; simpl; discriminate ].
Qed.

(** ** The life of a session *)

(** The table after an INVOKE that returned: the old table, with an entry
    for the session unless the handler failed with a recoverable error. *)
Lemma invoke_returned_table w session event :
  snd (Worker.on_message (Some (Invoke session event)) w) = Return tt ->
  sessions (fst (Worker.on_message (Some (Invoke session event)) w)) = sessions w
  \/ exists bound,
      sessions (fst (Worker.on_message (Some (Invoke session event)) w))
      = <[session := bound]> (sessions w).
Proof.
  unfold Worker.on_message, try_except, bind, get.
  destruct (sandbox w !! event) as [h|] eqn:Hh.
  - rewrite (invoke_registered _ _ _ _ _ _ Hh).
    destruct (hr_raise h) as [e|];
      [destruct (is_ImportError_or_SyntaxError e);
       [|destruct (is_Exception e)]|];
      step; try discriminate; eauto.
  - rewrite (invoke_no_handler _ _ _ _ _ Hh). step. eauto.
Qed.

(** The table after a CHOKE that returned: the old table without the
    session. *)
Lemma choke_returned_table w session :
  snd (Worker.on_message (Some (Choke session)) w) = Return tt ->
  sessions (fst (Worker.on_message (Some (Choke session)) w))
  = delete session (sessions w).
Proof.
  unfold Worker.on_message. step.
  destruct (sessions w !! session) as [d|] eqn:Hd; simpl.
  - destruct (behaviour d (history d) Close) as [ops [e|]] eqn:Hb;
      rewrite run_reaction_Response; simpl; [discriminate|].
    rewrite lookup_insert_eq. simpl. intros _. apply delete_insert_eq.
  - intros _. symmetry. by apply delete_id.
Qed.

(** X9.  A session that is opened and then closed leaves no trace in the table:
    after an INVOKE that returned and a CHOKE of the same session that
    returned, the Session Table is the table before the INVOKE without that
    session, and is that very table when the session id was free. *)
Theorem invoke_then_choke_restores_table
    (w w1 w2 : Worker) (session : Z) (event : string) :
  Worker.on_message (Some (Invoke session event)) w = (w1, Return tt) ->
  Worker.on_message (Some (Choke session)) w1 = (w2, Return tt) ->
  sessions w2 = delete session (sessions w)
  /\ (sessions w !! session = None -> sessions w2 = sessions w).
Proof.
  intros Hinvoke Hchoke.
  assert (Htable : sessions w2 = delete session (sessions w)).
  { pose proof (choke_returned_table w1 session) as Hw2.
    rewrite Hchoke in Hw2. simpl in Hw2. rewrite Hw2 by done.
    pose proof (invoke_returned_table w session event) as Hw1.
    rewrite Hinvoke in Hw1. simpl in Hw1.
    destruct Hw1 as [-> | [bound ->]]; [done..|].
    apply delete_insert_eq. }
  split; [done|]. intros Hfree. rewrite Htable. by apply delete_id.
Qed.

Lemma invoke_then_choke_restores_table_witness :
  sessions (fst (Worker.on_message (Some (Choke 7))
                   (fst (Worker.on_message (Some (Invoke 7 "ping")) Examples.worker))))
  = sessions Examples.worker.
Proof.
  apply (invoke_then_choke_restores_table Examples.worker
           (fst (Worker.on_message (Some (Invoke 7 "ping")) Examples.worker))
           (fst (Worker.on_message (Some (Choke 7))
                   (fst (Worker.on_message (Some (Invoke 7 "ping")) Examples.worker))))
           7 "ping").
  - vm_compute. reflexivity.
  - vm_compute. reflexivity.
  - vm_compute. reflexivity.
Defined.

(** X10.  An INVOKE on a session id that is live replaces the sink of that
    session: when the dispatch returns, the table has the same keys and the
    same number of entries, the session maps to a sink that has received
    nothing, and the engine writes nothing but the answers of the handler,
    so the sink it drops is not told. *)
Theorem invoke_live_session_replaces_sink
    (w w1 : Worker) (session : Z) (event : string) (d bound : Deferred) :
  sessions w !! session = Some d ->
  Sandbox.invoke (sandbox w) event Deferred_new (Worker.Response session) w
  = (w1, Return bound) ->
  exists w',
    Worker.on_message (Some (Invoke session event)) w = (w', Return tt)
    /\ sessions w' !! session = Some bound
    /\ history bound = []
    /\ dom (sessions w') = dom (sessions w)
    /\ size (sessions w') = size (sessions w)
    /\ effects w' = effects w1.
Proof.
  intros Hlive Hinv.
  assert (Hfresh : history bound = []).
  { unfold Sandbox.invoke in Hinv. destruct (sandbox w !! event) as [h|].
    - unfold bind in Hinv. rewrite run_reaction_Response in Hinv.
      destruct (hr_raise h); [discriminate|]. by injection Hinv as _ <-.
    - revert Hinv. step. by intros [= _ <-]. }
  destruct (invoke_adds_effects (sandbox w) event Deferred_new session w)
    as [es Hes].
  rewrite Hinv in Hes. simpl in Hes. subst w1.
  eexists. unfold Worker.on_message, try_except, bind, get, modify.
  rewrite Hinv. split; [reflexivity|]. simpl. repeat split.
  - apply lookup_insert_eq.
  - exact Hfresh.
  - apply dom_insert_lookup_L. by rewrite Hlive.
  - apply map_size_insert_Some. by rewrite Hlive.
Qed.

Lemma invoke_live_session_replaces_sink_witness :
  exists w',
    Worker.on_message (Some (Invoke 5 "ping")) Examples.worker = (w', Return tt)
    /\ sessions w' !! 5
       = Some {| history := []; behaviour := hr_bind Examples.ping |}
    /\ size (sessions w') = size (sessions Examples.worker).
Proof.
  destruct (invoke_live_session_replaces_sink Examples.worker
              (fst (Sandbox.invoke (sandbox Examples.worker) "ping" Deferred_new
                      (Worker.Response 5) Examples.worker))
              5 "ping" Examples.echo
              {| history := []; behaviour := hr_bind Examples.ping |})
    as (w' & Hmsg & Hentry & _ & _ & Hsize & _).
  - vm_compute. reflexivity.
  - vm_compute. reflexivity.
  - exists w'. repeat split; [exact Hmsg | exact Hentry | exact Hsize].
Defined.

(** ** The command line and the start of the worker *)

(** [l.index(x)] is the length of the part of [l] before the first [x]. *)
Lemma py_index_first x pre rest :
  x ∉ pre -> py_index x (pre ++ x :: rest) = Some (length pre).
Proof.
  induction pre as [|y pre IH]; simpl; intros Hnotin.
  - by rewrite String.eqb_refl.
  - destruct (String.eqb_spec y x) as [->|_].
    + exfalso. apply Hnotin. left.
    + rewrite IH; [done|]. intros Hin. apply Hnotin. by right.
Qed.

Lemma py_index_elem x l i : py_index x l = Some i -> x ∈ l.
Proof.
  revert i. induction l as [|y l IH]; simpl; intros i; [done|].
  destruct (String.eqb_spec y x) as [->|_]; [intros _; left|].
  destruct (py_index x l); [|done]. intros _. right. by eapply IH.
Qed.

(** The argument that follows the first occurrence of a flag. *)
Lemma arg_after_first flag pre v rest w :
  flag ∉ pre ->
  arg_after flag (pre ++ flag :: v :: rest) w = (w, Return v).
Proof.
  intros Hnotin. unfold arg_after. rewrite py_index_first by done.
  rewrite nth_error_app2 by lia.
  by replace (length pre + 1 - length pre)%nat with 1%nat by lia.
Qed.

(** The two outcomes of [arg_after]: a value of the list, found after the
    flag, or one of the two lookup errors, both instances of [Exception]. *)
Lemma arg_after_cases flag init_args w :
  (exists v, arg_after flag init_args w = (w, Return v)
             /\ flag ∈ init_args /\ v ∈ init_args)
  \/ (exists err, arg_after flag init_args w = (w, Raise err)
                  /\ is_Exception err = true).
Proof.
  unfold arg_after. destruct (py_index flag init_args) as [i|] eqn:Hi.
  - destruct (nth_error init_args (i + 1)) as [v|] eqn:Hv.
    + left. exists v. repeat split; [by eapply py_index_elem|].
      apply list_elem_of_In. by eapply nth_error_In.
    + right. by eexists.
  - right. by eexists.
Qed.

(** X11.  [_init_endpoint] takes the identity from the argument after the first
    "--uuid" and the endpoint from the argument after the first
    "--endpoint", whatever these arguments are; it changes nothing else and
    logs nothing. *)
Theorem init_endpoint_reads_values
    (w : Worker) (init_args pre1 rest1 pre2 rest2 : list string) (v e : string) :
  init_args = pre1 ++ "--uuid" :: v :: rest1 ->
  "--uuid" ∉ pre1 ->
  init_args = pre2 ++ "--endpoint" :: e :: rest2 ->
  "--endpoint" ∉ pre2 ->
  Worker._init_endpoint init_args w = (with_endpoint e (with_id v w), Return tt).
Proof.
  intros Huuid Hpre1 Hendpoint Hpre2.
  unfold Worker._init_endpoint, try_except, bind.
  rewrite Huuid at 1. rewrite (arg_after_first "--uuid" pre1 v rest1 w Hpre1).
  unfold modify at 1. rewrite Hendpoint.
  by rewrite (arg_after_first "--endpoint" pre2 e rest2 _ Hpre2).
Qed.

Lemma init_endpoint_reads_values_witness :
  Worker._init_endpoint ["worker.py"; "--endpoint"; "--uuid"; "w1"; "--uuid"; "w2"]
    Worker.blank
  = (with_endpoint "--uuid" (with_id "w1" Worker.blank), Return tt).
Proof.
  apply (init_endpoint_reads_values Worker.blank
           ["worker.py"; "--endpoint"; "--uuid"; "w1"; "--uuid"; "w2"]
           ["worker.py"; "--endpoint"] ["--uuid"; "w2"]
           ["worker.py"] ["w1"; "--uuid"; "w2"] "w1" "--uuid").
  - reflexivity.
  - rewrite !elem_of_cons, elem_of_nil. intros [?|[?|?]]; done.
  - reflexivity.
  - rewrite !elem_of_cons, elem_of_nil. intros [?|?]; done.
Defined.

(** The outcomes of [_init_endpoint], as states. *)
Lemma init_endpoint_cases init_args w :
  (exists v e,
      Worker._init_endpoint init_args w
      = (with_endpoint e (with_id v w), Return tt)
      /\ "--uuid" ∈ init_args /\ "--endpoint" ∈ init_args
      /\ v ∈ init_args /\ e ∈ init_args)
  \/ (exists text w1,
         Worker._init_endpoint init_args w
         = (with_effect (Log LError ("Wrong cmdline arguments: " +:+ text +:+ " ")) w1,
            Raise (RuntimeError "Wrong cmdline arguments"))
         /\ (w1 = w \/ exists v, w1 = with_id v w)).
Proof.
  unfold Worker._init_endpoint, try_except, bind.
  destruct (arg_after_cases "--uuid" init_args w)
    as [(v & -> & Hflag1 & Hv) | (err & -> & ->)].
  - unfold modify. cbv beta iota.
    destruct (arg_after_cases "--endpoint" init_args (with_id v w))
      as [(e & -> & Hflag2 & He) | (err & -> & ->)].
    + left. by exists v, e.
    + right. step. eexists _, _. split; [reflexivity|]. right. by eexists.
  - right. step. eexists _, _. split; [reflexivity|]. by left.
Qed.

(** X12.  [_init_endpoint] fails in one way only.  Either it returns, and then
    both flags occur in the arguments, the identity and the endpoint are
    arguments, and nothing is logged; or it raises the [RuntimeError] "Wrong
    cmdline arguments" after one line in the error log, whatever lookup
    failed.  It never writes to the transport and leaves the Session Table,
    the timers and the scheduler alone. *)
Theorem init_endpoint_outcome (w : Worker) (init_args : list string) :
  let w' := fst (Worker._init_endpoint init_args w) in
  ((snd (Worker._init_endpoint init_args w) = Return tt
    /\ "--uuid" ∈ init_args /\ "--endpoint" ∈ init_args
    /\ id w' ∈ init_args /\ endpoint w' ∈ init_args
    /\ effects w' = effects w)
   \/ (snd (Worker._init_endpoint init_args w)
       = Raise (RuntimeError "Wrong cmdline arguments")
       /\ exists text,
           effects w'
           = effects w ++ [Log LError ("Wrong cmdline arguments: " +:+ text +:+ " ")]))
  /\ sessions w' = sessions w
  /\ disown_timer w' = disown_timer w
  /\ heartbeat_timer w' = heartbeat_timer w
  /\ loop_stopped w' = loop_stopped w.
Proof.
  cbv zeta.
  destruct (init_endpoint_cases init_args w)
    as [(v & e & -> & ? & ? & ? & ?) | (text & w1 & -> & Hw1)]; simpl.
  - split; [left; by repeat split | done].
  - assert (effects w1 = effects w /\ sessions w1 = sessions w
            /\ disown_timer w1 = disown_timer w
            /\ heartbeat_timer w1 = heartbeat_timer w
            /\ loop_stopped w1 = loop_stopped w)
      as (-> & -> & -> & -> & ->)
      by (destruct Hw1 as [-> | [v ->]]; done).
    split; [right; split; [done|]; by eexists | done].
Qed.

(** X13.  When [__init__] returns, the worker has written exactly two messages,
    the HANDSHAKE carrying its identity and then the HEARTBEAT; its Session
    Table and its registry are empty, its scheduler is not stopped, the
    heartbeat timer runs with its timeout, the connect did not fail, and the
    identity and the endpoint are arguments of the command line in use: the
    one given, or that of the process when none or an empty one is given. *)
Theorem init_returns_started_worker
    (init_args : option (list string)) (sys_argv : list string)
    (disown_timeout heartbeat_timeout : N) (connect : option PyExc)
    (w0 w : Worker) :
  Worker.__init__ init_args sys_argv disown_timeout heartbeat_timeout connect w0
  = (w, Return tt) ->
  let args := match init_args with Some (a :: l) => a :: l | _ => sys_argv end in
  written (effects w) = written (effects w0) ++ [Handshake 0 (id w); Heartbeat 0]
  /\ sessions w = ∅
  /\ sandbox w = ∅
  /\ loop_stopped w = false
  /\ heartbeat_timer w
     = {| timeout := heartbeat_timeout; remaining := Some heartbeat_timeout |}
  /\ connect = None
  /\ id w ∈ args
  /\ endpoint w ∈ args.
Proof.
  intros Hinit args. revert Hinit. unfold Worker.__init__. fold args.
  unfold bind at 1.
  destruct (init_endpoint_cases args w0)
    as [(v & e & -> & _ & _ & Hv & He) | (text & w1 & -> & _)];
    [|discriminate].
  step. destruct connect; [discriminate|]. simpl.
  intros [= <-]. simpl. repeat split; try done.
  rewrite !written_app. simpl. rewrite !app_nil_r.
  by rewrite <- !app_assoc.
Qed.

Lemma init_returns_started_worker_witness :
  let w := fst (Worker.__init__ (Some []) ["worker.py"; "--uuid"; "w1"; "--endpoint"; "/tmp/s"]
                  2 20 None Worker.blank) in
  written (effects w) = [Handshake 0 "w1"; Heartbeat 0]
  /\ sessions w = ∅
  /\ id w ∈ ["worker.py"; "--uuid"; "w1"; "--endpoint"; "/tmp/s"].
Proof.
  intros w.
  destruct (init_returns_started_worker (Some [])
              ["worker.py"; "--uuid"; "w1"; "--endpoint"; "/tmp/s"]
              2%N 20%N None Worker.blank w)
    as (Hwritten & Htable & _ & _ & _ & _ & Hid & _).
  - vm_compute. reflexivity.
  - split; [exact Hwritten | split; [exact Htable | exact Hid]].
Defined.



(** ** The registry of handlers *)

(** X15.  The dispatch to a registered handler runs that handler and nothing
    else: the trace gains the answers of the handler, in their order, and no
    log line; the answers written before a failure stay written; the
    exception of the handler leaves the dispatch as it is; and the sink of
    the request comes back with what the handler bound to it. *)
Theorem sandbox_invoke_runs_registered_handler
    (_events : gmap string HandlerRun) (event : string) (h : HandlerRun)
    (request : Deferred) (session : Z) (w : Worker) :
  _events !! event = Some h ->
  let result := Sandbox.invoke _events event request (Worker.Response session) w in
  fst result = with_effects (map Write (map (message_of session) (hr_ops h))) w
  /\ written (effects (fst result))
     = written (effects w) ++ map (message_of session) (hr_ops h)
  /\ (forall err, hr_raise h = Some err -> snd result = Raise err)
  /\ (hr_raise h = None ->
      snd result = Return {| history := history request; behaviour := hr_bind h |}).
Proof.
  intros Hsome result. subst result. unfold Sandbox.invoke. rewrite Hsome.
  unfold bind. rewrite run_reaction_Response.
  destruct (hr_raise h) as [e|]; simpl;
    (repeat split; [by rewrite written_app, written_writes | congruence..]).
Qed.

Lemma sandbox_invoke_runs_registered_handler_witness :
  let result := Sandbox.invoke (sandbox Examples.worker) "oops" Deferred_new
                  (Worker.Response 7) Examples.worker in
  written (effects (fst result))
  = written (effects Examples.worker) ++ [Chunk 7 "partial"]
  /\ snd result = Raise (Exception "boom").
Proof.
  intros result.
  destruct (sandbox_invoke_runs_registered_handler (sandbox Examples.worker)
              "oops" Examples.failing Deferred_new 7 Examples.worker)
    as (_ & Hwritten & Hraise & _).
  - vm_compute. reflexivity.
  - split; [exact Hwritten | exact (Hraise (Exception "boom") eq_refl)].
Defined.

Section Registration.

Context {Handler Closure : Type}.
Variable call : Handler -> Result Closure.
Variable has_wrapped : Closure -> bool.
Variable default : Handler -> Handler.

(** The registry after a registration, when it returns. *)
Lemma sandbox_on_returned
    (_events registry : gmap string Handler) (name : string) (h : Handler) :
  Sandbox.on call has_wrapped default _events name h = Return registry ->
  exists stored,
    (stored = h \/ stored = default h)
    /\ registry = <[name := stored]> _events.
Proof.
  unfold Sandbox.on.
  destruct (call h) as [closure|err].
  - destruct (has_wrapped closure); simpl; intros [= <-]; eauto.
  - destruct (is_Exception err); [|discriminate].
    destruct (call (default h)) as [closure|err']; [|discriminate].
    destruct (has_wrapped closure); intros [= <-]; eauto.
Qed.

(** X16.  A registration that returns stores, under the event name, the handler
    given or its adapted form, and touches no other name: the registry gains
    at most that one key. *)
Theorem sandbox_on_registers
    (_events registry : gmap string Handler) (name : string) (h : Handler) :
  Sandbox.on call has_wrapped default _events name h = Return registry ->
  (registry !! name = Some h \/ registry !! name = Some (default h))
  /\ (forall other, other <> name -> registry !! other = _events !! other)
  /\ dom registry = {[name]} ∪ dom _events.
Proof.
  intros Hon. destruct (sandbox_on_returned _ _ _ _ Hon) as (stored & Hstored & ->).
  repeat split.
  - rewrite lookup_insert_eq. destruct Hstored as [-> | ->]; auto.
  - intros other Hother. by apply lookup_insert_ne.
  - apply dom_insert_L.
Qed.

(** X17.  The last registration for a name wins: registering a second handler
    under a name gives the registry that registering it alone gives. *)
Theorem sandbox_on_last_registration_wins
    (_events registry : gmap string Handler) (name : string) (h1 h2 : Handler) :
  Sandbox.on call has_wrapped default _events name h1 = Return registry ->
  Sandbox.on call has_wrapped default registry name h2
  = Sandbox.on call has_wrapped default _events name h2.
Proof.
  intros Hon. destruct (sandbox_on_returned _ _ _ _ Hon) as (stored & _ & ->).
  unfold Sandbox.on.
  destruct (call h2) as [closure|err].
  - by rewrite insert_insert_eq.
  - destruct (is_Exception err); [|done].
    destruct (call (default h2)) as [closure|err']; [|done].
    by rewrite insert_insert_eq.
Qed.

(** X18.  A registration fails in two cases only: the factory raises an exception
    that is no instance of [Exception], which leaves as it is; or the factory
    raises an instance of [Exception] and the adapted factory raises too,
    and then the second exception leaves.  A missing marker never makes a
    registration fail. *)
Theorem sandbox_on_failure
    (_events : gmap string Handler) (name : string) (h : Handler) (err : PyExc) :
  Sandbox.on call has_wrapped default _events name h = Raise err
  <-> (call h = Raise err /\ is_Exception err = false)
      \/ (exists first, call h = Raise first /\ is_Exception first = true
                        /\ call (default h) = Raise err).
Proof.
  unfold Sandbox.on. split.
  - destruct (call h) as [closure|first]; [discriminate|].
    destruct (is_Exception first) eqn:Hfirst.
    + destruct (call (default h)) as [closure|err'] eqn:Hdefault; [discriminate|].
      intros [= <-]. right. by exists first.
    + intros [= <-]. by left.
  - intros [[-> ->] | (first & -> & -> & ->)]; done.
Qed.

End Registration.

Lemma sandbox_on_registers_witness :
  let registry := <["echo" := Scenarios.Adapted (Scenarios.PlainFunction "echo")]>
                    (<["ping" := Scenarios.FrameworkClass "Ping"]> (∅ : gmap string Scenarios.Factory)) in
  (registry !! "echo" = Some (Scenarios.PlainFunction "echo")
   \/ registry !! "echo" = Some (Scenarios.Adapted (Scenarios.PlainFunction "echo")))
  /\ registry !! "ping" = Some (Scenarios.FrameworkClass "Ping").
Proof.
  intros registry.
  destruct (sandbox_on_registers Scenarios.call Scenarios.has_wrapped
              Scenarios.Adapted
              (<["ping" := Scenarios.FrameworkClass "Ping"]> (∅ : gmap string Scenarios.Factory)) registry
              "echo" (Scenarios.PlainFunction "echo"))
    as (Hstored & Hothers & _).
  - vm_compute. reflexivity.
  - split; [exact Hstored|].
    rewrite (Hothers "ping") by discriminate. vm_compute. reflexivity.
Defined.

Lemma sandbox_on_last_registration_wins_witness :
  Sandbox.on Scenarios.call Scenarios.has_wrapped Scenarios.Adapted
    (<["echo" := Scenarios.Adapted (Scenarios.PlainFunction "echo")]> (∅ : gmap string Scenarios.Factory))
    "echo" (Scenarios.FrameworkClass "Echo")
  = Sandbox.on Scenarios.call Scenarios.has_wrapped Scenarios.Adapted
      (∅ : gmap string Scenarios.Factory) "echo" (Scenarios.FrameworkClass "Echo").
Proof.
  apply (sandbox_on_last_registration_wins Scenarios.call Scenarios.has_wrapped
           Scenarios.Adapted (∅ : gmap string Scenarios.Factory)
           (<["echo" := Scenarios.Adapted (Scenarios.PlainFunction "echo")]> (∅ : gmap string Scenarios.Factory))
           "echo" (Scenarios.PlainFunction "echo")).
  vm_compute. reflexivity.
Defined.

Section WorkerRegistration.

Context {Closure : Type}.
Variable call : HandlerRun -> Result Closure.
Variable has_wrapped : Closure -> bool.
Variable default : HandlerRun -> HandlerRun.


End WorkerRegistration.


Lemma sandbox_on_failure_witness :
  Sandbox.on (fun _ : string => @Raise bool KeyboardInterrupt) (fun closure => closure)
    (fun h => h) (∅ : gmap string string) "ping" "Ping"
  = Raise KeyboardInterrupt.
Proof.
  apply (sandbox_on_failure (fun _ : string => @Raise bool KeyboardInterrupt)
           (fun closure => closure) (fun h => h) ∅ "ping" "Ping" KeyboardInterrupt).
  left. split; reflexivity.
Defined.

Lemma on_message_writes_for_its_session_witness :
  exists es,
    effects (fst (Worker.on_message (Some (Chunk 5 "abc")) Examples.worker))
    = effects Examples.worker ++ es
    /\ Chunk 5 "abc" ∈ written es
    /\ ((msg_session <$> Some (Chunk 5 "abc") = Some (msg_session (Chunk 5 "abc"))
         /\ (msg_id (Chunk 5 "abc") = CHUNK \/ msg_id (Chunk 5 "abc") = CHOKE
             \/ msg_id (Chunk 5 "abc") = ERROR))
        \/ (exists errno reason, Chunk 5 "abc" = Terminate 0 errno reason)).
Proof.
  destruct (on_message_writes_for_its_session Examples.worker (Some (Chunk 5 "abc")))
    as (es & Heffects & Hall).
  assert (Hin : Chunk 5 "abc" ∈ written es).
  { pose proof Heffects as Hes. vm_compute in Hes.
    simplify_eq. vm_compute. left. }
  exists es. split; [exact Heffects|]. split; [exact Hin|]. exact (Hall _ Hin).
Defined.

Lemma on_message_stops_loop_only_to_terminate_witness :
  exists es,
    effects (fst (Worker.on_message (Some (Chunk 7 "abc")) Examples.worker))
    = effects Examples.worker ++ es
    /\ LoopStop ∈ es
    /\ snd (Worker.on_message (Some (Chunk 7 "abc")) Examples.worker)
       = Raise (SystemExit 1).
Proof.
  destruct (on_message_stops_loop_only_to_terminate Examples.worker
              (Some (Chunk 7 "abc")))
    as (es & Heffects & [(Hnostop & _) | (front & errno & reason & Hes & _ & _ & _ & Hexit)]).
  - exfalso. apply Hnostop.
    pose proof Heffects as Hes. vm_compute in Hes. simplify_eq.
    rewrite !elem_of_cons. auto.
  - exists es. split; [exact Heffects|]. split; [|exact Hexit].
    rewrite Hes, elem_of_app, !elem_of_cons. auto.
Defined.

(** ** The heartbeat exchange *)

(** X20.  A heartbeat tick answered by the peer: one HEARTBEAT message is
    written and the disown timer ends stopped.  Two ticks without an answer:
    two HEARTBEAT messages are written and the disown timer is armed to its
    full timeout, as after one tick.  The timeout itself never changes. *)
Theorem heartbeat_exchange (w : Worker) (session : Z) :
  let tick := fst (Worker.on_heartbeat w) in
  let answered := fst (Worker.on_message (Some (Heartbeat session)) tick) in
  let unanswered := fst (Worker.on_heartbeat tick) in
  written (effects answered) = written (effects w) ++ [Heartbeat 0]
  /\ disown_timer answered
     = {| timeout := timeout (disown_timer w); remaining := None |}
  /\ written (effects unanswered) = written (effects w) ++ [Heartbeat 0; Heartbeat 0]
  /\ disown_timer unanswered = disown_timer tick
  /\ disown_timer tick
     = {| timeout := timeout (disown_timer w);
          remaining := Some (timeout (disown_timer w)) |}
  /\ sessions answered = sessions w
  /\ sessions unanswered = sessions w.
Proof.
  cbv zeta. unfold Worker.on_heartbeat, Worker.on_message. step.
  repeat split; rewrite !written_app; simpl; rewrite ?app_nil_r;
    by rewrite <- ?app_assoc.
Qed.
